(** * Session-gated image upload and export: a shallow embedding

    The development follows the Python sources of the multipage
    authentication Dash application:

    - [callbacks/layout_callbacks.py]      (navigation guard),
    - [callbacks/app/select_images_callbacks.py] (upload pipeline),
    - [file_io/file_utilities.py]          (storage layout, decoding, archive),
    - [auth/authentication.py]             (registration, login, session).

    Python values are modelled as follows.  A [str] is a [string] (a
    sequence of 8-bit characters, [str.lower] acting on the ASCII letters);
    [bytes] is a [list byte]; an exception is a class together with its
    message ([str(e)]); a function that may raise returns a [result]; a
    function that reads or writes the session, the user table or the file
    system is a state transformer over [World].  Third-party collaborators
    (Pillow, [base64], werkzeug) are parameters of the sections that use
    them. *)

From Stdlib Require Import String Ascii Strings.Byte List ZArith Bool Lia.
From Stdlib Require Import DecimalString.
From stdpp Require Import base option list strings gmap.

Local Open Scope string_scope.
Local Open Scope list_scope.

(** ** Python strings *)

Module PyStr.

(** [sub in s] *)
Fixpoint contains (sub s : string) : bool :=
  String.prefix sub s ||
  match s with
  | EmptyString => false
  | String _ s' => contains sub s'
  end.

Fixpoint has_char (c : ascii) (s : string) : bool :=
  match s with
  | EmptyString => false
  | String d s' => Ascii.eqb c d || has_char c s'
  end.

Definition lower_ascii (c : ascii) : ascii :=
  let n := nat_of_ascii c in
  if (65 <=? n)%nat && (n <=? 90)%nat then ascii_of_nat (n + 32) else c.

(** [s.lower()] *)
Fixpoint lower (s : string) : string :=
  match s with
  | EmptyString => EmptyString
  | String c s' => String (lower_ascii c) (lower s')
  end.

(** [s.endswith(suffix)] *)
Fixpoint endswith (s suffix : string) : bool :=
  String.eqb s suffix ||
  match s with
  | EmptyString => false
  | String _ s' => endswith s' suffix
  end.

(** [s.split(sep)] for a one-character separator: never the empty list. *)
Fixpoint split (sep : ascii) (s : string) : list string :=
  match s with
  | EmptyString => [EmptyString]
  | String c s' =>
      if Ascii.eqb c sep then EmptyString :: split sep s'
      else match split sep s' with
           | [] => [String c EmptyString]
           | h :: t => String c h :: t
           end
  end.

(** [s.split(sep, 1)]: the text before the first separator and the text
    after it, or [None] when [s] holds no separator (the Python result is
    then the one-element list, which cannot be unpacked into two). *)
Fixpoint split1 (sep : ascii) (s : string) : option (string * string) :=
  match s with
  | EmptyString => None
  | String c s' =>
      if Ascii.eqb c sep then Some (EmptyString, s')
      else match split1 sep s' with
           | Some (h, t) => Some (String c h, t)
           | None => None
           end
  end.

(** [sep.join(l)] *)
Fixpoint join (sep : string) (l : list string) : string :=
  match l with
  | [] => EmptyString
  | [x] => x
  | x :: rest => x +:+ sep +:+ join sep rest
  end.

(** [str(n)] for a non-negative integer *)
Definition of_nat (n : nat) : string := NilZero.string_of_uint (Nat.to_uint n).

End PyStr.

(** ** Exceptions and results *)

Inductive exn_class : Type :=
  | Exception
  | ValueError
  | BinasciiError
  | TypeError
  | OSError
  | FileNotFoundError
  | FileExistsError
  | IsADirectoryError
  | NotADirectoryError
  | PermissionError
  | UnidentifiedImageError.

#[global] Instance exn_class_eq_dec : EqDecision exn_class.
Proof. solve_decision. Defined.

(** The direct base class, as in the Python hierarchy ([IOError] is
    [OSError]; [binascii.Error] derives from [ValueError]). *)
Definition base_class (c : exn_class) : option exn_class :=
  match c with
  | Exception => None
  | ValueError | TypeError | OSError => Some Exception
  | BinasciiError => Some ValueError
  | FileNotFoundError | FileExistsError | IsADirectoryError
  | NotADirectoryError | PermissionError | UnidentifiedImageError => Some OSError
  end.

(** [issubclass(c, d)]: the hierarchy above has depth three. *)
Definition issubclass (c d : exn_class) : bool :=
  bool_decide (c = d) ||
  match base_class c with
  | None => false
  | Some b =>
      bool_decide (b = d) ||
      match base_class b with
      | None => false
      | Some b' => bool_decide (b' = d)
      end
  end.

Record exn : Type := mk_exn { exn_cls : exn_class; exn_msg : string }.

#[global] Instance exn_eq_dec : EqDecision exn.
Proof. solve_decision. Defined.

(** [isinstance(e, classes)] for the tuple of an [except] clause *)
Definition caught_by (classes : list exn_class) (e : exn) : bool :=
  existsb (issubclass (exn_cls e)) classes.

Inductive result (A : Type) : Type :=
  | Ok (a : A)
  | Raise (e : exn).
Arguments Ok {A} a.
Arguments Raise {A} e.

Definition is_ok {A} (r : result A) : bool :=
  match r with Ok _ => true | Raise _ => false end.

(** [try: body except classes as e: handler(e)] without state *)
Definition try_except {A} (body : result A) (classes : list exn_class)
    (handler : exn -> result A) : result A :=
  match body with
  | Ok a => Ok a
  | Raise e => if caught_by classes e then handler e else Raise e
  end.

Definition rbind {A B} (r : result A) (k : A -> result B) : result B :=
  match r with
  | Ok a => k a
  | Raise e => Raise e
  end.

Definition bytes : Type := list byte.

#[global] Instance byte_eq_decision : EqDecision byte := Byte.byte_eq_dec.

(** ** pathlib (POSIX flavour) *)

Module Pathlib.

(** A pure path: the root ([""], ["/"] or ["//"]) and the components after
    it.  Parsing drops empty components and ["."]; [".."] is kept. *)
Record Path : Type := mk_path { anchor : string; parts : list string }.

#[global] Instance Path_eq_dec : EqDecision Path.
Proof. solve_decision. Defined.

#[global] Instance Path_countable : Countable Path :=
  inj_countable' (fun p => (anchor p, parts p))
                 (fun ap => mk_path (fst ap) (snd ap))
                 (fun p => match p with mk_path _ _ => eq_refl end).

Definition sep : ascii := "/"%char.

Definition is_component (x : string) : bool :=
  negb (String.eqb x "") && negb (String.eqb x ".").

Definition parse_root (s : string) : string :=
  match s with
  | String "/" (String "/" (String "/" _)) => "/"
  | String "/" (String "/" _) => "//"
  | String "/" _ => "/"
  | _ => ""
  end.

(** [Path(s)] *)
Definition parse (s : string) : Path :=
  mk_path (parse_root s) (filter (fun x => is_component x = true) (PyStr.split sep s)).

(** [p / s] and [Path(p, s)] *)
Definition joinpath (p : Path) (s : string) : Path :=
  let q := parse s in
  if String.eqb (anchor q) "" then mk_path (anchor p) (parts p ++ parts q)
  else q.

(** [p.name] *)
Definition name (p : Path) : string := List.last (parts p) "".

(** [p.parent] *)
Definition parent (p : Path) : Path := mk_path (anchor p) (removelast (parts p)).

(** [str(p)] *)
Definition to_string (p : Path) : string :=
  match anchor p, parts p with
  | EmptyString, [] => "."
  | a, ps => a +:+ PyStr.join "/" ps
  end.

End Pathlib.
Export Pathlib.

(** ** The file system

    Directories and regular files, keyed by lexical path.  The root and the
    current directory (paths without components) always exist. *)

Record FS : Type := mk_fs { dirs : gset Path; files : gmap Path bytes }.

Definition is_file (fs : FS) (p : Path) : bool :=
  bool_decide (is_Some (files fs !! p)).

Definition is_dir (fs : FS) (p : Path) : bool :=
  bool_decide (parts p = []) || bool_decide (p ∈ dirs fs).

(** [p.exists()] *)
Definition path_exists (fs : FS) (p : Path) : bool := is_dir fs p || is_file fs p.

Definition add_dir (p : Path) (fs : FS) : FS := mk_fs ({[p]} ∪ dirs fs) (files fs).

Definition quoted (p : Path) : string := "'" +:+ to_string p +:+ "'".

(** [p.mkdir(parents=True, exist_ok=True)], walking down from the root:
    every missing directory on the way is created; a regular file in the
    way raises. *)
Fixpoint mkdir_chain (fs : FS) (root : string) (done todo : list string) : result FS :=
  match todo with
  | [] => Ok fs
  | c :: rest =>
      let p := mk_path root (done ++ [c]) in
      if is_file fs p then
        match rest with
        | [] => Raise (mk_exn FileExistsError ("[Errno 17] File exists: " +:+ quoted p))
        | _ => Raise (mk_exn NotADirectoryError
                        ("[Errno 20] Not a directory: "
                           +:+ quoted (mk_path root (done ++ todo))))
        end
      else mkdir_chain (add_dir p fs) root (done ++ [c]) rest
  end.

Definition mkdir_parents_exist_ok (fs : FS) (p : Path) : result FS :=
  mkdir_chain fs (anchor p) [] (parts p).

(** [open(p, "w+b")] followed by a write of [data] *)
Definition write_file (fs : FS) (p : Path) (data : bytes) : result FS :=
  if is_dir fs p then
    Raise (mk_exn IsADirectoryError ("[Errno 21] Is a directory: " +:+ quoted p))
  else if negb (is_dir fs (parent p)) then
    Raise (mk_exn FileNotFoundError ("[Errno 2] No such file or directory: " +:+ quoted p))
  else Ok (mk_fs (dirs fs) (<[p := data]> (files fs))).

Definition empty_fs : FS := mk_fs ∅ ∅.

(** ** The world: session, user table, file system *)

(** A row of the [User] table. *)
Record User : Type := mk_user { user_id : nat; username : string; hashed_password : string }.

(** [current_user] is a [User] after [login_user], and the anonymous user
    ([None]) otherwise. *)
Record World : Type := mk_world {
  current_user : option User;
  user_table : list User;
  fs : FS
}.

(** [current_user.is_authenticated] *)
Definition has_user (w : World) : bool :=
  match current_user w with Some _ => true | None => false end.

Definition set_current_user (u : option User) (w : World) : World :=
  mk_world u (user_table w) (fs w).
Definition set_user_table (t : list User) (w : World) : World :=
  mk_world (current_user w) t (fs w).
Definition set_fs (f : FS) (w : World) : World :=
  mk_world (current_user w) (user_table w) f.

(** Computations that read and write the world and may raise. *)
Definition M (A : Type) : Type := World -> result A * World.

Definition ret {A} (a : A) : M A := fun w => (Ok a, w).
Definition raise {A} (e : exn) : M A := fun w => (Raise e, w).
Definition bind {A B} (m : M A) (k : A -> M B) : M B :=
  fun w => match m w with
           | (Ok a, w') => k a w'
           | (Raise e, w') => (Raise e, w')
           end.
Definition lift {A} (r : result A) : M A := fun w => (r, w).
Definition get_fs : M FS := fun w => (Ok (fs w), w).
Definition put_fs (f : FS) : M unit := fun w => (Ok tt, set_fs f w).

(** [try: body except classes as e: handler(e)]; effects of [body] that
    happened before the exception stay. *)
Definition try_catch {A} (body : M A) (classes : list exn_class)
    (handler : exn -> M A) : M A :=
  fun w => match body w with
           | (Ok a, w') => (Ok a, w')
           | (Raise e, w') => if caught_by classes e then handler e w' else (Raise e, w')
           end.

Declare Scope py_scope.
Delimit Scope py_scope with py.
Notation "x <- m ;; k" := (bind m (fun x => k))
  (at level 100, m at next level, right associativity) : py_scope.
Notation "m ;;; k" := (bind m (fun _ => k))
  (at level 100, right associativity) : py_scope.
Notation "x <-! r ;; k" := (rbind r (fun x => k))
  (at level 100, r at next level, right associativity) : py_scope.

Local Open Scope py_scope.

Section Application.

(** ** file_io/file_utilities.py *)

(** [Path(config["DEFAULT_USER_BASE_FOLDER"])] *)
Variable DEFAULT_USER_BASE_FOLDER : Path.

(** [base64.b64decode] on a [str] *)
Variable b64decode : string -> result bytes.

(** Pillow: opened images, numpy arrays, and the calls the module makes.
    [Image_save img p] is the file content that [img.save(p)] produces for
    the path [p] (the format follows the suffix), or the exception it raises
    before anything is written. *)
Context {Img ndarray : Type}.
Variable Image_open : bytes -> result Img.
Variable Image_verify : Img -> result unit.
Variable Image_save : Img -> Path -> result bytes.
Variable Image_fromarray : ndarray -> result Img.
Variable Image_save_tiff : Img -> result bytes.

Definition mkdir (p : Path) : M unit :=
  f <- get_fs ;;
  f' <- lift (mkdir_parents_exist_ok f p) ;;
  put_fs f'.

Definition create_user_directory (name : string) : M unit :=
  try_catch
    (let user_folder_path := joinpath DEFAULT_USER_BASE_FOLDER name in
     mkdir user_folder_path)
    [Exception]
    (fun _ => raise (mk_exn OSError ("Failed to create user directory for " +:+ name))).

Definition get_user_directory (name : string) : M Path :=
  let user_dir := joinpath DEFAULT_USER_BASE_FOLDER name in
  f <- get_fs ;;
  if negb (path_exists f user_dir) then
    raise (mk_exn FileNotFoundError
             ("User directory does not exist: " +:+ to_string user_dir))
  else ret user_dir.

(** An in-memory zip archive: the entries in the order they were written. *)
Definition ZipFile : Type := list (string * bytes).

Definition get_tiff_bytes (array : ndarray) : result bytes :=
  try_except
    (image <-! Image_fromarray array ;;
     data_bytes <-! Image_save_tiff image ;;
     Ok data_bytes)
    [Exception]
    (fun e => Raise (mk_exn OSError
                       ("Failed to convert image array to TIFF image bytes: " +:+ exn_msg e))).

(** [for idx, image in enumerate(image_arrays): zipf.writestr(...)], from
    index [idx] on. *)
Fixpoint write_entries (idx : nat) (image_arrays : list ndarray) (zipf : ZipFile)
  : result ZipFile :=
  match image_arrays with
  | [] => Ok zipf
  | image :: rest =>
      let filename := PyStr.of_nat idx +:+ ".tif" in
      tiff_bytes <-! get_tiff_bytes image ;;
      write_entries (S idx) rest (zipf ++ [(filename, tiff_bytes)])
  end.

Definition create_tif_zip_archive (image_arrays : list ndarray) : result ZipFile :=
  try_except
    (write_entries 0 image_arrays [])
    [Exception]
    (fun e => Raise (mk_exn OSError ("Failed to create TIFF zip archive: " +:+ exn_msg e))).

Definition validate_image_content (content : bytes) : result unit :=
  try_except
    (img <-! Image_open content ;;
     Image_verify img)
    [OSError; ValueError]
    (fun e => Raise (mk_exn ValueError ("Invalid image content: " +:+ exn_msg e))).

Definition decode_base64_image (content_str : string) : result bytes :=
  try_except
    (if negb (PyStr.contains "," content_str) then
       Raise (mk_exn ValueError
                "Input string does not contain a comma to split header and data.")
     else
       match PyStr.split1 "," content_str with
       | None => Raise (mk_exn ValueError "not enough values to unpack (expected 2, got 1)")
       | Some (_, split_content_str) =>
           decoded_content_bytes <-! b64decode split_content_str ;;
           match decoded_content_bytes with
           | [] => Raise (mk_exn ValueError "Decoded image content is empty.")
           | _ => Ok decoded_content_bytes
           end
       end)
    [ValueError; BinasciiError]
    (fun e => Raise (mk_exn ValueError ("Failed to decode base64 image: " +:+ exn_msg e))).

Definition save_image_from_bytes (content : bytes) (filename : string) (upload_dir : Path)
  : M Path :=
  try_catch
    (mkdir upload_dir ;;;
     image <- lift (Image_open content) ;;
     let safe_filename := name (parse filename) in
     let file_path := joinpath upload_dir safe_filename in
     data <- lift (Image_save image file_path) ;;
     f <- get_fs ;;
     f' <- lift (write_file f file_path data) ;;
     put_fs f' ;;;
     ret file_path)
    [Exception]
    (fun e => raise (mk_exn OSError
                       ("Failed to save image '" +:+ filename +:+ "': " +:+ exn_msg e))).

(** ** auth/authentication.py *)

(** werkzeug's [generate_password_hash] and [check_password_hash] *)
Variable generate_password_hash : string -> string.
Variable check_password_hash : string -> string -> bool.

(** [User.query.filter_by(username=username).first()] *)
Definition filter_by_username (name : string) (table : list User) : option User :=
  List.find (fun u => String.eqb (username u) name) table.

(** The row id given by the table to the next inserted row. *)
Definition next_id (table : list User) : nat := S (list_max (map user_id table)).

(** [user_db.session.add(new_user); user_db.session.commit()] *)
Definition session_add_commit (name hashed : string) : M unit :=
  fun w => (Ok tt, set_user_table (user_table w ++ [mk_user (next_id (user_table w)) name hashed]) w).

(** flask-login's [login_user]: a [UserMixin] is always active. *)
Definition login_user (u : User) : M bool :=
  fun w => (Ok true, set_current_user (Some u) w).

(** flask-login's [logout_user] *)
Definition logout_user : M unit :=
  fun w => (Ok tt, set_current_user None w).

Definition query_first (name : string) : M (option User) :=
  fun w => (Ok (filter_by_username name (user_table w)), w).

Definition register_user (name password : string) : M (bool * string) :=
  existing <- query_first name ;;
  match existing with
  | Some _ => ret (false, "Username already exists")
  | None =>
      let hashed_password := generate_password_hash password in
      session_add_commit name hashed_password ;;;
      ret (true, "Registration successful. You can now log in with your new account.")
  end.

Definition authenticate_user (name password : string) : M (bool * string) :=
  user <- query_first name ;;
  match user with
  | None => ret (false, "Invalid username or password.")
  | Some u =>
      if negb (check_password_hash (hashed_password u) password) then
        ret (false, "Invalid username or password.")
      else
        logged_in <- login_user u ;;
        if logged_in then
          create_user_directory (username u) ;;;
          ret (true, "Login successful. Redirecting...")
        else ret (false, "Login unsuccessful. Please try again.")
  end.

Definition logout : M unit := logout_user.

Definition is_authenticated : M bool :=
  fun w => (Ok (has_user w), w).

(** [current_user.username]; the anonymous user is excluded by the check
    before it. *)
Definition get_current_username : M string :=
  authenticated <- is_authenticated ;;
  if negb authenticated then raise (mk_exn PermissionError "No authenticated user found")
  else fun w => match current_user w with
                | Some u => (Ok (username u), w)
                | None => (Raise (mk_exn PermissionError "No authenticated user found"), w)
                end.

Definition username_is_valid (name : string) : M bool :=
  existing <- query_first name ;;
  match existing with
  | Some _ => ret false
  | None => ret true
  end.

(** ** callbacks/app/select_images_callbacks.py *)

(** Truth value of an [Optional[List[str]]]: [None] and [[]] are false. *)
Definition truthy_list {A} (l : option (list A)) : bool :=
  match l with
  | None | Some [] => false
  | Some (_ :: _) => true
  end.

(** [l or default] *)
Definition or_list {A} (l : option (list A)) (default : list A) : list A :=
  match l with
  | None | Some [] => default
  | Some l' => l'
  end.

Record UploadResponse : Type := mk_response {
  type : string;
  message : string;
  valid_files : list string;
  errors : list string
}.

(** The key [errors] of [ProcessedFileInfo] is the field [file_errors]
    here, [errors] being the field of [UploadResponse]. *)
Record ProcessedFileInfo : Type := mk_processed {
  saved_files : list string;
  file_errors : list string
}.

Definition _upload_error_response (msg : string) (errs : option (list string))
  : UploadResponse :=
  mk_response "error" msg [] (or_list errs []).

Definition _empty_upload_response : UploadResponse :=
  mk_response "empty" "No files uploaded" [] [].

Definition _successful_upload_response (upload_type : string) (valid : list string)
    (errs : option (list string)) : UploadResponse :=
  mk_response upload_type "Upload completed" valid (or_list errs []).

Definition valid_extensions : list string := [".tif"; ".tiff"; ".png"; ".jpg"; ".jpeg"].

Definition _validate_file_extension (filename : string) : result unit :=
  if negb (existsb (fun ext => PyStr.endswith (PyStr.lower filename) ext) valid_extensions)
  then Raise (mk_exn ValueError ("Unsupported file type: " +:+ filename))
  else Ok tt.

(** The body of the [try] inside the loop of [_process_uploaded_images]:
    the four steps for one file, giving the recorded name
    ([saved_path.name]). *)
Definition process_file (image_dir : Path) (content filename : string) : M string :=
  lift (_validate_file_extension filename) ;;;
  decoded_content <- lift (decode_base64_image content) ;;
  lift (validate_image_content decoded_content) ;;;
  saved_path <- save_image_from_bytes decoded_content filename image_dir ;;
  ret (name saved_path).

(** [for content, filename in zip(contents, filenames): try ... except
    Exception as e: errors.append(...)] on the two accumulators. *)
Fixpoint upload_loop (image_dir : Path) (pairs : list (string * string))
    (saved errs : list string) : World -> (list string * list string) * World :=
  fun w =>
    match pairs with
    | [] => ((saved, errs), w)
    | (content, filename) :: rest =>
        match process_file image_dir content filename w with
        | (Ok saved_name, w') => upload_loop image_dir rest (saved ++ [saved_name]) errs w'
        | (Raise e, w') =>
            upload_loop image_dir rest saved (errs ++ [filename +:+ ": " +:+ exn_msg e]) w'
        end
    end.

Definition _process_uploaded_images (contents filenames : list string)
  : M ProcessedFileInfo :=
  name <- get_current_username ;;
  if String.eqb name "" then raise (mk_exn ValueError "No authenticated user found")
  else
    user_dir <- get_user_directory name ;;
    let image_dir := joinpath user_dir "images" in
    fun w =>
      let '((saved, errs), w') := upload_loop image_dir (combine contents filenames) [] [] w in
      (Ok (mk_processed saved errs), w').

Definition handle_image_upload (contents filenames : option (list string))
  : M UploadResponse :=
  authenticated <- is_authenticated ;;
  if negb authenticated then
    ret (_upload_error_response "You must be logged in to upload images." (Some []))
  else if negb (truthy_list contents) || negb (truthy_list filenames) then
    ret _empty_upload_response
  else
    try_catch
      (processed_images_results <-
         _process_uploaded_images (or_list contents []) (or_list filenames []) ;;
       let saved := saved_files processed_images_results in
       let errs := file_errors processed_images_results in
       if match saved with [] => true | _ => false end || (length saved =? 0)%nat then
         ret (_upload_error_response "Upload failed"
                (Some (or_list (Some errs) ["Unknown error occurred"])))
       else
         let upload_type :=
           match errs with [] => "success" | _ => "partial_success" end in
         ret (_successful_upload_response upload_type saved (Some errs)))
      [Exception]
      (fun e => ret (_upload_error_response "Upload failed" (Some [exn_msg e]))).

End Application.

(** ** callbacks/layout_callbacks.py *)

(** An entry of Dash's page registry: [page["path"]] and
    [page.get("location")]. *)
Record Page : Type := mk_page { path : string; location : option string }.

(** What the guard writes to [url.pathname]: a path, or [no_update]. *)
Inductive Navigation : Type :=
  | no_update
  | RedirectTo (pathname : string).

Definition PROTECTED_LOCATIONS : list string := ["app"].
Definition AUTH_LOCATIONS : list string := ["auth"].

(** [page_location in locations], where [page_location] may be [None] *)
Definition location_in (page_location : option string) (locations : list string) : bool :=
  match page_location with
  | None => false
  | Some l => existsb (String.eqb l) locations
  end.

(** Truth value of [logout_clicks : int or None] *)
Definition truthy_clicks (logout_clicks : option Z) : bool :=
  match logout_clicks with
  | None => false
  | Some n => negb (n =? 0)%Z
  end.

Section LayoutCallbacks.

(** [dash.page_registry.values()], in registration order *)
Variable page_registry : list Page.

Definition _get_location (pathname : string) : option string :=
  let current_page := List.find (fun page => PyStr.contains (path page) pathname) page_registry in
  match current_page with
  | Some page => location page
  | None => None
  end.

Definition auth_guard_and_logout (pathname : string) (logout_clicks : option Z)
  : M Navigation :=
  if truthy_clicks logout_clicks then
    logout ;;;
    ret (RedirectTo "/login")
  else
    user_authenticated <- is_authenticated ;;
    let page_location := _get_location pathname in
    if user_authenticated && negb (location_in page_location PROTECTED_LOCATIONS) then
      ret (RedirectTo "/select-images")
    else if negb user_authenticated && negb (location_in page_location AUTH_LOCATIONS) then
      ret (RedirectTo "/login")
    else ret no_update.

End LayoutCallbacks.

(** ** A concrete choice of the collaborators

    The statements below hold for every behaviour of the third-party
    libraries.  To run the definitions on examples, this module fixes one:
    [b64decode] follows CPython's [binascii.a2b_base64] in its default
    (non-strict) mode; the imaging functions accept a payload that starts
    with the PNG signature byte and reject 64-bit integer arrays, as
    [Image.fromarray] does. *)

Module Collaborators.

Definition b64_value (c : ascii) : option nat :=
  let n := nat_of_ascii c in
  if (65 <=? n)%nat && (n <=? 90)%nat then Some (n - 65)
  else if (97 <=? n)%nat && (n <=? 122)%nat then Some (n - 97 + 26)
  else if (48 <=? n)%nat && (n <=? 57)%nat then Some (n - 48 + 52)
  else if (n =? 43)%nat then Some 62
  else if (n =? 47)%nat then Some 63
  else None.

Definition byte_of_nat (n : nat) : byte := byte_of_ascii (ascii_of_nat (n mod 256)).

(** The decoding loop: [quad_pos], [leftchar] and [pads] as in the C source;
    [out] collects the bytes. *)
Fixpoint a2b_loop (s : string) (quad_pos leftchar pads : nat) (out : bytes) : result bytes :=
  match s with
  | EmptyString =>
      match quad_pos with
      | 0 => Ok out
      | 1 => Raise (mk_exn BinasciiError
                      ("Invalid base64-encoded string: number of data characters ("
                         +:+ PyStr.of_nat (length out / 3 * 4 + 1)
                         +:+ ") cannot be 1 more than a multiple of 4"))
      | _ => Raise (mk_exn BinasciiError "Incorrect padding")
      end
  | String c s' =>
      if Ascii.eqb c "="%char then
        if (2 <=? quad_pos)%nat && (4 <=? quad_pos + S pads)%nat then Ok out
        else a2b_loop s' quad_pos leftchar (if (2 <=? quad_pos)%nat then S pads else pads) out
      else
        match b64_value c with
        | None => a2b_loop s' quad_pos leftchar pads out
        | Some v =>
            match quad_pos with
            | 0 => a2b_loop s' 1 v 0 out
            | 1 => a2b_loop s' 2 (v mod 16) 0 (out ++ [byte_of_nat (leftchar * 4 + v / 16)])
            | 2 => a2b_loop s' 3 (v mod 4) 0 (out ++ [byte_of_nat (leftchar * 16 + v / 4)])
            | _ => a2b_loop s' 0 0 0 (out ++ [byte_of_nat (leftchar * 64 + v)])
            end
        end
  end.

Fixpoint is_ascii_str (s : string) : bool :=
  match s with
  | EmptyString => true
  | String c s' => (nat_of_ascii c <? 128)%nat && is_ascii_str s'
  end.

Definition b64decode (s : string) : result bytes :=
  if is_ascii_str s then a2b_loop s 0 0 0 []
  else Raise (mk_exn ValueError "string argument should contain only ASCII characters").

(** Images are kept as their payload. *)
Definition Img : Type := bytes.

Definition Image_open (content : bytes) : result Img :=
  match content with
  | x89 :: _ => Ok content
  | _ => Raise (mk_exn UnidentifiedImageError "cannot identify image file")
  end.

Definition Image_verify (img : Img) : result unit := Ok tt.

Definition Image_save (img : Img) (p : Path) : result bytes :=
  if existsb (fun ext => PyStr.endswith (PyStr.lower (name p)) ext)
       [".tif"; ".tiff"; ".png"; ".jpg"; ".jpeg"]
  then Ok img
  else Raise (mk_exn ValueError ("unknown file extension: " +:+ name p)).

Inductive dtype : Type := uint8 | uint16 | int64.

Record ndarray : Type := mk_array { array_dtype : dtype; array_rows : list (list nat) }.

Definition Image_fromarray (a : ndarray) : result Img :=
  match array_dtype a with
  | int64 => Raise (mk_exn TypeError "Cannot handle this data type: (1, 1), <i8")
  | _ => Ok (map byte_of_nat (concat (array_rows a)))
  end.

Definition Image_save_tiff (img : Img) : result bytes := Ok (x49 :: x49 :: x2a :: x00 :: img).

Definition DEFAULT_USER_BASE_FOLDER : Path := parse "/data/users".

Definition generate_password_hash (password : string) : string := "pbkdf2:" +:+ password.

Definition alice : User := mk_user 1 "alice" "pbkdf2:pw123".

(** A world where alice is signed in and her directory exists. *)
Definition signed_in : World :=
  mk_world (Some alice) [alice]
    (mk_fs {[ parse "/data"; parse "/data/users"; parse "/data/users/alice" ]} ∅).

(** The same world before anyone signed in. *)
Definition signed_out : World := set_current_user None signed_in.

Definition png_payload : string := "data:image/png;base64,iVBORw0KGgo=".

Definition pages : list Page :=
  [ mk_page "/login" (Some "auth");
    mk_page "/select-images" (Some "app");
    mk_page "/register" (Some "auth");
    mk_page "/review-images" (Some "app");
    mk_page "/" (Some "home") ].

End Collaborators.

(** ** Vocabulary of the statements *)

(** A single path component that names an entry of its directory: not
    empty, no separator, neither ["."] nor [".."]. *)
Definition plain_name (n : string) : bool :=
  negb (PyStr.has_char sep n) && negb (String.eqb n "")
  && negb (String.eqb n ".") && negb (String.eqb n "..").


Section Outcomes.

Variable b64decode : string -> result bytes.
Context {Img : Type}.
Variable Image_open : bytes -> result Img.
Variable Image_verify : Img -> result unit.
Variable Image_save : Img -> Path -> result bytes.

(** The outcome of every file of a batch, in input order: the file name
    with the saved name or the exception of its own four steps, each file
    starting from the world its predecessors left. *)
Fixpoint outcomes (image_dir : Path) (pairs : list (string * string)) (w : World)
  : list (string * result string) * World :=
  match pairs with
  | [] => ([], w)
  | (content, filename) :: rest =>
      let '(r, w1) := process_file b64decode Image_open Image_verify Image_save
                        image_dir content filename w in
      let '(os, w2) := outcomes image_dir rest w1 in
      ((filename, r) :: os, w2)
  end.

End Outcomes.

(** The saved names among the outcomes, in order. *)
Fixpoint saved_of (os : list (string * result string)) : list string :=
  match os with
  | [] => []
  | (_, Ok n) :: rest => n :: saved_of rest
  | (_, Raise _) :: rest => saved_of rest
  end.

(** The error entries among the outcomes, in order. *)
Fixpoint errors_of (os : list (string * result string)) : list string :=
  match os with
  | [] => []
  | (_, Ok _) :: rest => errors_of rest
  | (filename, Raise e) :: rest => (filename +:+ ": " +:+ exn_msg e) :: errors_of rest
  end.

From Stdlib Require DecimalNat.

(** ** The remaining pages

    The rest of the modules above, and the callbacks of the other pages:
    [callbacks/auth/login_callbacks.py],
    [callbacks/auth/registration_callbacks.py] and
    [callbacks/app/review_images_callbacks.py].  They read the image
    directory back, so the file system gets its listing first. *)

(** *** Directory listings *)

(** [os.listdir] gives the entries of a directory in an order of the
    operating system's choosing: any enumeration of the names. *)
Record ScanOrder : Type := mk_scan {
  enumerate : gset string -> list string;
  enumerate_perm : forall names, enumerate names ≡ₚ elements names
}.

(** The names of the entries (files and directories) of [dir]. *)
Definition child_names (f : FS) (dir : Path) : gset string :=
  set_map name (filter (fun p => parts p <> [] /\ parent p = dir) (dom (files f) ∪ dirs f)).

Definition os_listdir (scan : ScanOrder) (f : FS) (dir : Path) : result (list string) :=
  if is_dir f dir then Ok (enumerate scan (child_names f dir))
  else if is_file f dir then
    Raise (mk_exn NotADirectoryError ("[Errno 20] Not a directory: " +:+ quoted dir))
  else
    Raise (mk_exn FileNotFoundError ("[Errno 2] No such file or directory: " +:+ quoted dir)).

(** [open(p, "rb").read()] *)
Definition read_file (f : FS) (p : Path) : result bytes :=
  if is_dir f p then
    Raise (mk_exn IsADirectoryError ("[Errno 21] Is a directory: " +:+ quoted p))
  else match files f !! p with
       | Some data => Ok data
       | None => Raise (mk_exn FileNotFoundError
                          ("[Errno 2] No such file or directory: " +:+ quoted p))
       end.

(** Truth value of an [Optional[str]]: [None] and [""] are false. *)
Definition truthy_str (s : option string) : bool :=
  match s with
  | None | Some EmptyString => false
  | Some _ => true
  end.

(** The suffix test of [get_image_filenames] *)
Definition supported_name (n : string) : bool :=
  existsb (fun ext => PyStr.endswith (PyStr.lower n) ext)
    [".tif"; ".tiff"; ".jpg"; ".jpeg"; ".png"].

Section Pages.

Variable DEFAULT_USER_BASE_FOLDER : Path.
Variable scan : ScanOrder.
Variable generate_password_hash : string -> string.
Variable check_password_hash : string -> string -> bool.

(** Pillow and numpy on stored files, [zipfile]'s serialisation of an
    archive ([BytesIO.getvalue]) and [base64.b64encode(...).decode]. *)
Context {Img ndarray : Type}.
Variable Image_open : bytes -> result Img.
Variable np_array : Img -> result ndarray.
Variable Image_fromarray : ndarray -> result Img.
Variable Image_save_tiff : Img -> result bytes.
Variable zip_getvalue : ZipFile -> bytes.
Variable b64encode : bytes -> string.

(** *** file_io/file_utilities.py, continued *)

Definition get_image_filenames (dir : Path) : M (list string) :=
  f <- get_fs ;;
  if negb (path_exists f dir) then
    raise (mk_exn FileNotFoundError ("Directory does not exist: " +:+ to_string dir))
  else
    listing <- lift (os_listdir scan f dir) ;;
    ret (List.filter supported_name listing).

(** The loop of [get_image_arrays_from_folder] over the listing. *)
Fixpoint load_arrays (f : FS) (folder_path : Path) (listing : list string)
    (images : list ndarray) : result (list ndarray) :=
  match listing with
  | [] => Ok images
  | filename :: rest =>
      if PyStr.endswith filename ".tif" then
        let file_path := joinpath folder_path filename in
        content <-! read_file f file_path ;;
        img <-! Image_open content ;;
        array <-! np_array img ;;
        load_arrays f folder_path rest (images ++ [array])
      else load_arrays f folder_path rest images
  end.

Definition get_image_arrays_from_folder (folder_path : Path) : M (list ndarray) :=
  f <- get_fs ;;
  listing <- lift (os_listdir scan f folder_path) ;;
  lift (load_arrays f folder_path listing []).

(** *** callbacks/app/select_images_callbacks.py, continued *)

(** [any(contents)] for a list whose items are strings or [None] *)
Definition any_truthy (contents : list (option string)) : bool :=
  existsb truthy_str contents.

Definition update_review_images_button_state (contents : option (list (option string)))
  : bool :=
  if negb (truthy_list contents) || negb (any_truthy (or_list contents [])) then true
  else false.

Record DownloadData : Type := mk_download {
  download_filename : string;
  download_content : string;
  download_base64 : bool;
  download_type : string
}.

(** A [ReviewImagesResponse] with its three keys; the empty dictionary
    [{}] is [None]. *)
Record ReviewImagesResponse : Type := mk_review {
  review_type : string;
  review_message : string;
  review_errors : list string
}.

Definition _zip_error_response : ReviewImagesResponse :=
  mk_review "error" "Files uploaded, but failed to create ZIP archive for download."
    ["ZIP archive creation failed."].

(** [create_tif_zip_archive] returns a buffer or raises, so the test
    [zip_archive is None] of the source is never true. *)
Definition _create_download_zip (results : list ndarray) : result (option DownloadData) :=
  zip_archive <-! create_tif_zip_archive Image_fromarray Image_save_tiff results ;;
  let zip_bytes := zip_getvalue zip_archive in
  let zip_b64 := b64encode zip_bytes in
  Ok (Some (mk_download "images.zip" zip_b64 true "application/zip")).

Definition clicked (n_clicks : option Z) : bool :=
  match n_clicks with
  | None => false
  | Some n => negb (n =? 0)%Z && negb (n <=? 0)%Z
  end.

(** The three outputs: download data or [None], a path or [no_update], a
    response or [{}]. *)
Definition download_images_and_review (n_clicks : option Z) (contents : option (list string))
  : M (option DownloadData * Navigation * option ReviewImagesResponse) :=
  if negb (clicked n_clicks) || match contents with Some [] => true | _ => false end then
    ret (None, no_update, None)
  else
    try_catch
      (name <- get_current_username ;;
       user_dir <- get_user_directory DEFAULT_USER_BASE_FOLDER name ;;
       let images_dir := joinpath user_dir "images" in
       images <- get_image_arrays_from_folder images_dir ;;
       download_data <- lift (_create_download_zip images) ;;
       match download_data with
       | None => ret (None, no_update, Some _zip_error_response)
       | Some data =>
           ret (Some data, RedirectTo "/review-images",
                Some (mk_review "success" "Images ready for review." []))
       end)
      [Exception]
      (fun e => ret (None, no_update,
                     Some (mk_review "error" "Failed to download images." [exn_msg e]))).

(** *** callbacks/app/review_images_callbacks.py *)

Definition get_image_files : M (string * list string) :=
  try_catch
    (name <- get_current_username ;;
     user_root <- get_user_directory DEFAULT_USER_BASE_FOLDER name ;;
     let user_dir := joinpath user_root "images" in
     image_files <- get_image_filenames user_dir ;;
     ret (to_string user_dir, image_files))
    [Exception]
    (fun _ => ret ("", [])).

(** The message and the [display] value of the alert's style. *)
Definition review_images_warning_callback (image_filenames : list string) : string * string :=
  match image_filenames with
  | _ :: _ => ("", "none")
  | [] => ("No images found for the current user.", "block")
  end.

(** *** callbacks/layout_callbacks.py, continued *)

(** A style dictionary *)
Definition Style : Type := list (string * string).

Definition update_menu_visibility (pathname : string) : M (Style * Style * string) :=
  user_is_authenticated <- is_authenticated ;;
  if user_is_authenticated then
    name <- get_current_username ;;
    let shown_name := if String.eqb name "" then "User" else name in
    ret ([("display", "none")], [], "Welcome, " +:+ shown_name)
  else ret ([], [("display", "none")], "").

(** *** callbacks/auth/login_callbacks.py *)

Definition set_login_button_disabled (name password : option string) : bool :=
  negb (truthy_str name && truthy_str password).

Definition handle_login (n_clicks : option Z) (name password : string)
  : M (string * string * Navigation) :=
  if negb (truthy_clicks n_clicks) then ret ("", "success", no_update)
  else
    outcome <- authenticate_user DEFAULT_USER_BASE_FOLDER check_password_hash name password ;;
    let '(success, message) := outcome in
    let color := if success then "success" else "danger" in
    let redirect := if success then RedirectTo "/select-images" else no_update in
    ret (message, color, redirect).

(** *** callbacks/auth/registration_callbacks.py *)

Definition set_register_button_disabled (name password confirm_password : option string)
  : bool :=
  if truthy_str name && truthy_str password && bool_decide (password = confirm_password)
  then false else true.

Definition register_user_message (register_clicks : option Z) (name : string)
    (password : option string) : M (string * Navigation) :=
  if negb (truthy_clicks register_clicks) then ret ("", no_update)
  else match password with
       | None => ret ("Password empty", no_update)
       | Some pw =>
           outcome <- register_user generate_password_hash name pw ;;
           let '(success, message) := outcome in
           let redirect := if success then RedirectTo "/login" else no_update in
           ret (message, redirect)
       end.

Definition check_username_message (name : option string) : M string :=
  match name with
  | None | Some EmptyString => ret ""
  | Some n =>
      valid <- username_is_valid n ;;
      if valid then ret "" else ret "Username already exists"
  end.

Definition check_password_message (confirm_password password : option string) : string :=
  if negb (truthy_str confirm_password) then ""
  else if negb (bool_decide (password = confirm_password)) then "Passwords do not match"
  else "".

End Pages.

(** ** More collaborators for concrete runs *)

Module Stored.

Import Collaborators.

Definition scan : ScanOrder := mk_scan elements (fun names => reflexivity (elements names)).

(** Arrays read back from a stored payload: one row of byte values. *)
Definition np_array (img : Img) : result ndarray :=
  Ok (mk_array uint8 [map Byte.to_nat img]).

(** The archive as a flat byte string: each entry's name and data. *)
Definition zip_getvalue (z : ZipFile) : bytes :=
  concat (map (fun entry => map byte_of_ascii (list_ascii_of_string (fst entry)) ++ snd entry) z).

(** A stand-in for the base64 text: the number of bytes. *)
Definition b64encode (data : bytes) : string := PyStr.of_nat (length data).

Definition check_password_hash (hashed password : string) : bool :=
  String.eqb hashed (generate_password_hash password).

(** Alice is registered; nobody is signed in and no directory exists. *)
Definition registered : World := mk_world None [alice] empty_fs.

(** The same, with a regular file where alice's directory would go. *)
Definition blocked : World :=
  mk_world None [alice] (mk_fs ∅ {[ parse "/data/users/alice" := [] ]}).

(** Alice's world after she uploaded a TIFF and a PNG. *)
Definition stocked : World :=
  snd (handle_image_upload DEFAULT_USER_BASE_FOLDER b64decode Image_open Image_verify
         Image_save (Some [png_payload; png_payload]) (Some ["a.tif"; "b.png"]) signed_in).

End Stored.

(** * Properties *)

(** ** The definitions at work *)

Example parse_nested : parse "a/./b//c.png" = mk_path "" ["a"; "b"; "c.png"].
Proof. reflexivity. Qed.

Example name_strips_directories : name (parse "../../etc/x.png") = "x.png".
Proof. reflexivity. Qed.

Example name_of_dotdot : name (parse "a/..") = "..".
Proof. reflexivity. Qed.

Example join_absolute : joinpath (parse "/srv/users") "/etc" = parse "/etc".
Proof. reflexivity. Qed.

Example of_nat_10 : PyStr.of_nat 10 = "10" /\ PyStr.of_nat 0 = "0".
Proof. split; reflexivity. Qed.

Example endswith_ex : PyStr.endswith (PyStr.lower "A.PNG") ".png" = true.
Proof. reflexivity. Qed.

Example b64decode_png : Collaborators.b64decode "iVBORw0KGgo=" =
  Ok [x89; x50; x4e; x47; x0d; x0a; x1a; x0a].
Proof. vm_compute. reflexivity. Qed.

Example b64decode_empty : Collaborators.b64decode "" = Ok [].
Proof. reflexivity. Qed.

Example b64decode_padding : Collaborators.b64decode "iVB" = Raise (mk_exn BinasciiError "Incorrect padding").
Proof. reflexivity. Qed.

Example guard_unauthenticated_app_page :
  fst (auth_guard_and_logout Collaborators.pages "/select-images" None Collaborators.signed_out)
  = Ok (RedirectTo "/login").
Proof. reflexivity. Qed.

Example guard_authenticated_app_page :
  fst (auth_guard_and_logout Collaborators.pages "/select-images" (Some 0%Z) Collaborators.signed_in)
  = Ok no_update.
Proof. reflexivity. Qed.

(** ** Exceptions *)

Lemma except_Exception_catches_all (e : exn) : caught_by [Exception] e = true.
Proof. destruct e as [[] msg]; reflexivity. Qed.

(** ** The navigation guard *)

Section GuardProperties.

Variable page_registry : list Page.

Lemma location_in_singleton (tag : option string) (l : string) :
  location_in tag [l] = false <-> tag <> Some l.
Proof.
  destruct tag as [t|]; simpl.
  - rewrite orb_false_r. destruct (String.eqb_spec t l) as [->|Hne].
    + split; [discriminate | intros H; contradiction H; reflexivity].
    + split; [intros _ [=]; contradiction | reflexivity].
  - split; [discriminate | reflexivity].
Qed.

(** The location tag is the tag of the first registered page whose path
    occurs in the requested path. *)
Lemma _get_location_first (pathname : string) (before after : list Page) (page : Page) :
  page_registry = before ++ page :: after ->
  Forall (fun q => PyStr.contains (path q) pathname = false) before ->
  PyStr.contains (path page) pathname = true ->
  _get_location page_registry pathname = location page.
Proof.
  intros -> Hbefore Hpage. unfold _get_location.
  induction Hbefore as [|q before Hq _ IH]; simpl.
  - rewrite Hpage. reflexivity.
  - rewrite Hq. exact IH.
Qed.

Lemma _get_location_unmatched (pathname : string) :
  Forall (fun q => PyStr.contains (path q) pathname = false) page_registry ->
  _get_location page_registry pathname = None.
Proof.
  unfold _get_location. induction 1 as [|q l Hq _ IH]; simpl.
  - reflexivity.
  - rewrite Hq. exact IH.
Qed.

(** C1: the guard always returns, and decides in this order: a logout click
    logs out and redirects to "/login" whatever the session; otherwise an
    authenticated session on a page not tagged [app] is sent to
    "/select-images"; otherwise an unauthenticated session on a page not
    tagged [auth] is sent to "/login"; otherwise the page stays
    ([no_update]).  Only the logout branch changes the world. *)
Theorem auth_guard_decision (pathname : string) (logout_clicks : option Z) (w : World) :
  let run := auth_guard_and_logout page_registry pathname logout_clicks w in
  let logout_requested := truthy_clicks logout_clicks in
  let authenticated := has_user w in
  let tag := _get_location page_registry pathname in
  (exists nav w', run = (Ok nav, w')) /\
  (logout_requested = true ->
     run = (Ok (RedirectTo "/login"), set_current_user None w) /\
     has_user (snd run) = false) /\
  (logout_requested = false -> authenticated = true -> tag <> Some "app" ->
     run = (Ok (RedirectTo "/select-images"), w)) /\
  (logout_requested = false -> authenticated = false -> tag <> Some "auth" ->
     run = (Ok (RedirectTo "/login"), w)) /\
  (logout_requested = false ->
     (authenticated = true /\ tag = Some "app") \/ (authenticated = false /\ tag = Some "auth") ->
     run = (Ok no_update, w)).
Proof.
  cbv zeta. unfold auth_guard_and_logout.
  destruct (truthy_clicks logout_clicks) eqn:Hclicks.
  - repeat split; try discriminate; eauto.
  - unfold bind, is_authenticated, ret. cbn beta iota.
    destruct (has_user w) eqn:Hauth; cbn [andb negb].
    + destruct (location_in (_get_location page_registry pathname) PROTECTED_LOCATIONS) eqn:Hloc;
        cbn [negb].
      * assert (Htag : ~ _get_location page_registry pathname <> Some "app").
        { intros Hne. apply location_in_singleton in Hne.
          unfold PROTECTED_LOCATIONS in Hloc. congruence. }
        repeat split; try discriminate; eauto.
        intros _ _ Hne. contradiction.
      * apply location_in_singleton in Hloc.
        repeat split; try discriminate; eauto.
        intros _ [[_ Htag] | [Hf _]]; [contradiction | discriminate].
    + destruct (location_in (_get_location page_registry pathname) AUTH_LOCATIONS) eqn:Hloc;
        cbn [negb].
      * assert (Htag : ~ _get_location page_registry pathname <> Some "auth").
        { intros Hne. apply location_in_singleton in Hne.
          unfold AUTH_LOCATIONS in Hloc. congruence. }
        repeat split; try discriminate; eauto.
        intros _ _ Hne. contradiction.
      * apply location_in_singleton in Hloc.
        repeat split; try discriminate; eauto.
        intros _ [[Hf _] | [_ Htag]]; [discriminate | contradiction].
Qed.

End GuardProperties.

(** ** The upload pipeline *)

Section UploadProperties.

Variable DEFAULT_USER_BASE_FOLDER : Path.
Variable b64decode : string -> result bytes.
Context {Img : Type}.
Variable Image_open : bytes -> result Img.
Variable Image_verify : Img -> result unit.
Variable Image_save : Img -> Path -> result bytes.

Local Abbreviation handle_upload :=
  (handle_image_upload DEFAULT_USER_BASE_FOLDER b64decode Image_open Image_verify Image_save).
Local Abbreviation process_batch :=
  (_process_uploaded_images DEFAULT_USER_BASE_FOLDER b64decode Image_open Image_verify Image_save).
Local Abbreviation process_one := (process_file b64decode Image_open Image_verify Image_save).
Local Abbreviation loop := (upload_loop b64decode Image_open Image_verify Image_save).
Local Abbreviation save_image := (save_image_from_bytes Image_open Image_save).

Lemma truthy_list_combine {A B} (l1 : option (list A)) (l2 : option (list B)) :
  truthy_list l1 && truthy_list l2 = true <->
  combine (or_list l1 []) (or_list l2 []) <> [].
Proof.
  destruct l1 as [[|a l1]|], l2 as [[|b l2]|]; simpl; split;
    solve [discriminate | congruence | reflexivity].
Qed.

Lemma or_list_nonempty {A} (l d : list A) : l <> [] -> or_list (Some l) d = l.
Proof. destruct l; [congruence | reflexivity]. Qed.

(** What [handle_image_upload] answers once the session is authenticated
    and both lists are non-empty, in terms of the batch run. *)
Lemma handle_upload_batch (contents filenames : option (list string)) (w : World) :
  has_user w = true ->
  truthy_list contents = true -> truthy_list filenames = true ->
  handle_upload contents filenames w =
    match process_batch (or_list contents []) (or_list filenames []) w with
    | (Ok info, w') =>
        match saved_files info, file_errors info with
        | [], [] => (Ok (mk_response "error" "Upload failed" [] ["Unknown error occurred"]), w')
        | [], errs => (Ok (mk_response "error" "Upload failed" [] errs), w')
        | saved, [] => (Ok (mk_response "success" "Upload completed" saved []), w')
        | saved, errs => (Ok (mk_response "partial_success" "Upload completed" saved errs), w')
        end
    | (Raise e, w') => (Ok (mk_response "error" "Upload failed" [] [exn_msg e]), w')
    end.
Proof.
  intros Hauth Hc Hf. unfold handle_image_upload.
  unfold bind at 1. unfold is_authenticated. rewrite Hauth, Hc, Hf. cbn [negb orb].
  unfold try_catch, bind.
  destruct (process_batch _ _ w) as [[info|e] w'].
  - destruct info as [[|s saved] [|e errs]]; reflexivity.
  - rewrite except_Exception_catches_all. reflexivity.
Qed.

(** C10: an upload from an unauthenticated session is answered by the
    error response "You must be logged in to upload images." with no saved
    file and no error entry, whatever the two lists are (empty and absent
    ones included), and leaves the world as it was: the authentication
    check comes before the no-files check. *)
Theorem upload_requires_login (contents filenames : option (list string)) (w : World) :
  has_user w = false ->
  handle_upload contents filenames w =
    (Ok (mk_response "error" "You must be logged in to upload images." [] []), w)
  /\ fst (handle_upload contents filenames w) <> Ok _empty_upload_response.
Proof.
  intros Hauth. unfold handle_image_upload, bind, is_authenticated.
  rewrite Hauth. cbn. split; [reflexivity | discriminate].
Qed.

(** C4, as the code has it: in an authenticated session, when either list
    is empty or absent the answer is the empty response (no saved file, no
    error entry) and the world is unchanged; two lists of unequal length are
    otherwise processed pairwise up to the length of the shorter one. *)
Theorem upload_no_files_or_truncated (contents filenames : option (list string)) (w : World) :
  has_user w = true ->
  (truthy_list contents = false \/ truthy_list filenames = false ->
     handle_upload contents filenames w = (Ok _empty_upload_response, w)) /\
  (forall cs fs, contents = Some cs -> filenames = Some fs ->
     let n := Nat.min (length cs) (length fs) in
     handle_upload contents filenames w =
     handle_upload (Some (firstn n cs)) (Some (firstn n fs)) w).
Proof.
  intros Hauth. split.
  - intros Hempty. unfold handle_image_upload, bind, is_authenticated.
    rewrite Hauth. cbn [negb].
    destruct Hempty as [-> | ->]; cbn [negb orb]; [|rewrite orb_true_r]; reflexivity.
  - intros cs fs -> -> n. subst n.
    destruct cs as [|c cs], fs as [|f fs]; try reflexivity.
    rewrite !handle_upload_batch by (assumption || reflexivity).
    cbn [or_list length Nat.min firstn].
    unfold _process_uploaded_images.
    assert (Hcomb : forall (l1 l2 : list string),
               combine (firstn (Nat.min (length l1) (length l2)) l1)
                       (firstn (Nat.min (length l1) (length l2)) l2) = combine l1 l2).
    { induction l1 as [|a l1 IH]; intros [|b l2]; simpl; try reflexivity.
      f_equal. apply IH. }
    change (c :: firstn (Nat.min (length cs) (length fs)) cs)
      with (firstn (Nat.min (length (c :: cs)) (length (f :: fs))) (c :: cs)).
    change (f :: firstn (Nat.min (length cs) (length fs)) fs)
      with (firstn (Nat.min (length (c :: cs)) (length (f :: fs))) (f :: fs)).
    rewrite Hcomb. reflexivity.
Qed.

(** C2: in an authenticated session the upload always answers, and the
    kind of the answer is tied to its lists: "success" exactly when there
    are saved files and no errors, "partial_success" exactly when there are
    both, "error" exactly when nothing was saved although files were
    supplied, "empty" exactly when no file was supplied. *)
Theorem upload_kind_invariant (contents filenames : option (list string)) (w : World) :
  has_user w = true ->
  let input := combine (or_list contents []) (or_list filenames []) in
  exists r w',
    handle_upload contents filenames w = (Ok r, w') /\
    (type r = "success" <-> errors r = [] /\ valid_files r <> []) /\
    (type r = "partial_success" <-> valid_files r <> [] /\ errors r <> []) /\
    (type r = "error" <-> valid_files r = [] /\ input <> []) /\
    (type r = "empty" <-> input = []).
Proof.
  intros Hauth input.
  destruct (truthy_list contents && truthy_list filenames) eqn:Htruthy.
  - assert (Hin : input <> []) by (apply truthy_list_combine; exact Htruthy).
    apply andb_true_iff in Htruthy as [Hc Hf].
    rewrite handle_upload_batch by assumption.
    destruct (process_batch _ _ w) as [[info|e] w'].
    + destruct info as [[|s saved] [|e errs]]; cbn [saved_files file_errors];
        eexists _, _; (split; [reflexivity|]); cbn [type errors valid_files];
        repeat split; solve [ discriminate | congruence | intros []; congruence
                            | intros [? ?]; congruence | intros; assumption ].
    + eexists _, _; (split; [reflexivity|]); cbn [type errors valid_files];
        repeat split; solve [ discriminate | congruence | intros []; congruence
                            | intros [? ?]; congruence | intros; assumption ].
  - assert (Hin : input = []).
    { destruct (truthy_list_combine contents filenames) as [_ H].
      subst input. destruct (combine _ _) as [|x l]; [reflexivity|].
      rewrite H in Htruthy; discriminate. }
    exists _empty_upload_response, w. split.
    + unfold handle_image_upload, bind, is_authenticated. rewrite Hauth. cbn [negb].
      apply andb_false_iff in Htruthy as [-> | ->]; cbn [negb orb];
        [|rewrite orb_true_r]; reflexivity.
    + cbn [type errors valid_files _empty_upload_response].
      repeat split; solve [ discriminate | congruence | intros []; congruence
                          | intros [? ?]; congruence | intros; assumption ].
Qed.

(** *** Strings and paths *)

Lemma prefix_empty (s : string) : String.prefix "" s = true.
Proof. destruct s; reflexivity. Qed.

Lemma contains_char (c : ascii) (s : string) :
  PyStr.contains (String c "") s = PyStr.has_char c s.
Proof.
  induction s as [|d s IH]; simpl.
  - reflexivity.
  - rewrite IH, prefix_empty. destruct (Ascii.eqb_spec c d) as [->|Hne].
    + destruct (ascii_dec d d); [reflexivity | contradiction].
    + destruct (ascii_dec c d); [contradiction | reflexivity].
Qed.

Lemma split1_None (c : ascii) (s : string) :
  PyStr.has_char c s = false -> PyStr.split1 c s = None.
Proof.
  induction s as [|d s IH]; simpl; [reflexivity|].
  intros H. apply orb_false_iff in H as [Hcd Hs].
  rewrite Ascii.eqb_sym, Hcd, (IH Hs). reflexivity.
Qed.

Lemma split1_Some (c : ascii) (s h t : string) :
  PyStr.split1 c s = Some (h, t) <->
  s = h +:+ String c t /\ PyStr.has_char c h = false.
Proof.
  revert h. induction s as [|d s IH]; intros h; simpl.
  - split; [discriminate|]. intros [H _]. destruct h; discriminate.
  - destruct (Ascii.eqb_spec d c) as [->|Hne].
    + split.
      * intros [= <- <-]. split; reflexivity.
      * intros [H Hh]. destruct h as [|x h]; simpl in *.
        -- injection H as ->. reflexivity.
        -- injection H as <- _. rewrite Ascii.eqb_refl in Hh. discriminate.
    + destruct (PyStr.split1 c s) as [[h' t']|] eqn:Hsplit.
      * split.
        -- intros [= <- <-]. destruct (proj1 (IH h') eq_refl) as [-> Hh'].
           simpl. split; [reflexivity|].
           rewrite Hh', orb_false_r. apply Ascii.eqb_neq. congruence.
        -- intros [H Hh]. destruct h as [|x h]; simpl in *.
           ++ injection H as -> _. contradiction.
           ++ injection H as <- ->. apply orb_false_iff in Hh as [_ Hh].
              assert (E : Some (h', t') = Some (h, t)) by (apply IH; split; [reflexivity | exact Hh]).
              congruence.
      * split; [discriminate|]. intros [H Hh]. destruct h as [|x h]; simpl in *.
        -- injection H as -> _. contradiction.
        -- injection H as <- ->. apply orb_false_iff in Hh as [_ Hh].
           assert (E : None = Some (h, t)) by (apply IH; split; [reflexivity | exact Hh]).
           discriminate.
Qed.

Lemma lower_ascii_sep (c : ascii) : Ascii.eqb sep (PyStr.lower_ascii c) = Ascii.eqb sep c.
Proof. destruct c as [[] [] [] [] [] [] [] []]; reflexivity. Qed.

Lemma has_sep_lower (s : string) : PyStr.has_char sep (PyStr.lower s) = PyStr.has_char sep s.
Proof.
  induction s as [|c s IH]; [reflexivity|].
  cbn [PyStr.lower PyStr.has_char]. rewrite IH, lower_ascii_sep. reflexivity.
Qed.

Lemma split_not_nil (c : ascii) (s : string) : PyStr.split c s <> [].
Proof.
  destruct s as [|d s]; simpl; [discriminate|].
  destruct (Ascii.eqb d c); [discriminate|]. destruct (PyStr.split c s); discriminate.
Qed.

Lemma split_no_sep (c : ascii) (s : string) :
  PyStr.has_char c s = false -> PyStr.split c s = [s].
Proof.
  induction s as [|d s IH]; simpl; [reflexivity|].
  intros H. apply orb_false_iff in H as [Hcd Hs].
  rewrite Ascii.eqb_sym, Hcd, (IH Hs). reflexivity.
Qed.

Lemma split_parts_no_sep (c : ascii) (s : string) :
  Forall (fun x => PyStr.has_char c x = false) (PyStr.split c s).
Proof.
  induction s as [|d s IH]; simpl.
  - repeat constructor.
  - destruct (Ascii.eqb d c) eqn:Hdc.
    + constructor; [reflexivity | exact IH].
    + destruct (PyStr.split c s) as [|h t]; [repeat constructor; simpl|].
      * rewrite Ascii.eqb_sym, Hdc. reflexivity.
      * inversion IH as [|? ? Hh Ht]; subst. constructor; [|exact Ht].
        simpl. rewrite Ascii.eqb_sym, Hdc, Hh. reflexivity.
Qed.

Lemma endswith_refl (s : string) : PyStr.endswith s s = true.
Proof. destruct s; cbn [PyStr.endswith]; rewrite String.eqb_refl; reflexivity. Qed.

(** A suffix free of separators is a suffix of the last component. *)
Lemma last_split_endswith (s ext : string) :
  PyStr.has_char sep ext = false ->
  PyStr.endswith (PyStr.lower s) ext = true ->
  PyStr.endswith (PyStr.lower (List.last (PyStr.split sep s) "")) ext = true.
Proof.
  intros Hext. induction s as [|c s IH]; [intros H; exact H|].
  intros H. cbn [PyStr.lower PyStr.endswith] in H. apply orb_true_iff in H as [Hall | Hrest].
  - apply String.eqb_eq in Hall.
    assert (Hs : PyStr.has_char sep (String c s) = false).
    { rewrite <- has_sep_lower. cbn [PyStr.lower]. rewrite Hall. exact Hext. }
    rewrite (split_no_sep _ _ Hs). cbn [List.last PyStr.lower]. rewrite Hall. apply endswith_refl.
  - specialize (IH Hrest). cbn [PyStr.split].
    destruct (Ascii.eqb c sep).
    + destruct (PyStr.split sep s) as [|h t] eqn:Hsp; [exact IH|]. exact IH.
    + destruct (PyStr.split sep s) as [|h [|h' t]] eqn:Hsp.
      * exfalso. exact (split_not_nil _ _ Hsp).
      * cbn [List.last] in *. cbn [PyStr.lower PyStr.endswith]. rewrite IH. apply orb_true_r.
      * exact IH.
Qed.

Lemma last_filter {A} (P : A -> Prop) `{!forall x, Decision (P x)} (l : list A) (d : A) :
  l <> [] -> P (List.last l d) -> List.last (filter P l) d = List.last l d.
Proof.
  intros Hne HP. destruct (exists_last Hne) as (l' & x & ->).
  rewrite last_last in *. rewrite filter_app, filter_cons_True, filter_nil by exact HP.
  apply last_last.
Qed.

Lemma last_Forall {A} (P : A -> Prop) (l : list A) (d : A) :
  Forall P l -> P d -> P (List.last l d).
Proof.
  induction 1 as [|x l Hx Hl IH]; intros Hd; [exact Hd|].
  destruct l; [exact Hx | apply IH; exact Hd].
Qed.

(** [Path(filename).name] never holds a separator. *)
Lemma name_parse_no_sep (filename : string) :
  PyStr.has_char sep (name (parse filename)) = false.
Proof.
  unfold name, parse. cbn [parts].
  apply (last_Forall (fun x => PyStr.has_char sep x = false)); [|reflexivity].
  apply list.Forall_forall. intros x Hx. apply list_elem_of_filter in Hx as [_ Hx].
  revert x Hx. apply list.Forall_forall. apply split_parts_no_sep.
Qed.

Lemma endswith_length (s suffix : string) :
  PyStr.endswith s suffix = true -> String.length suffix <= String.length s.
Proof.
  induction s as [|c s IH]; cbn [PyStr.endswith]; intros H;
    apply orb_true_iff in H as [H|H]; try discriminate.
  - apply String.eqb_eq in H. subst. reflexivity.
  - apply String.eqb_eq in H. subst. reflexivity.
  - specialize (IH H). simpl. lia.
Qed.

Lemma lower_length (s : string) : String.length (PyStr.lower s) = String.length s.
Proof. induction s as [|c s IH]; simpl; [reflexivity | rewrite IH; reflexivity]. Qed.

Lemma long_string_not_dots (s : string) :
  3 <= String.length s ->
  String.eqb s "" = false /\ String.eqb s "." = false /\ String.eqb s ".." = false.
Proof.
  intros H. repeat split; apply String.eqb_neq; intros ->; simpl in H; lia.
Qed.

(** A file name that passes the extension check has a proper base name:
    the last component of the name as written. *)
Lemma valid_extension_name (filename : string) :
  _validate_file_extension filename = Ok tt ->
  name (parse filename) = List.last (PyStr.split sep filename) ""
  /\ plain_name (name (parse filename)) = true.
Proof.
  unfold _validate_file_extension.
  destruct (existsb _ valid_extensions) eqn:Hext; [intros _ | discriminate].
  apply existsb_exists in Hext as (ext & Hin & Hends).
  assert (Hlast : PyStr.endswith (PyStr.lower (List.last (PyStr.split sep filename) "")) ext = true
                  /\ 4 <= String.length ext).
  { unfold valid_extensions in Hin. simpl in Hin.
    destruct Hin as [<-|[<-|[<-|[<-|[<-|[]]]]]];
      (split; [apply last_split_endswith; [reflexivity | exact Hends] | simpl; lia]). }
  destruct Hlast as [Hlast Hlen].
  apply endswith_length in Hlast. rewrite lower_length in Hlast.
  set (base := List.last (PyStr.split sep filename) "") in *.
  destruct (long_string_not_dots base) as (Hnil & Hdot & Hdots); [lia|].
  assert (Hcomp : is_component base = true).
  { unfold is_component. rewrite Hnil, Hdot. reflexivity. }
  assert (Hname : name (parse filename) = base).
  { unfold name, parse. cbn [parts]. apply last_filter; [apply split_not_nil | exact Hcomp]. }
  split; [exact Hname|].
  unfold plain_name. rewrite name_parse_no_sep, Hname, Hnil, Hdot, Hdots. reflexivity.
Qed.

Lemma parse_plain_name (n : string) : plain_name n = true -> parse n = mk_path "" [n].
Proof.
  unfold plain_name. intros H.
  apply andb_true_iff in H as [H _]. apply andb_true_iff in H as [H Hdot].
  apply andb_true_iff in H as [Hsep Hnil].
  apply negb_true_iff in Hsep, Hnil, Hdot.
  unfold parse. rewrite (split_no_sep _ _ Hsep). f_equal.
  - destruct n as [|c n]; [reflexivity|].
    cbn [PyStr.has_char] in Hsep. apply orb_false_iff in Hsep as [Hc _].
    destruct c as [[] [] [] [] [] [] [] []]; try reflexivity. discriminate Hc.
  - rewrite filter_cons_True, filter_nil; [reflexivity|].
    unfold is_component. rewrite Hnil, Hdot. reflexivity.
Qed.

Lemma joinpath_plain_name (dir : Path) (n : string) :
  plain_name n = true -> joinpath dir n = mk_path (anchor dir) (parts dir ++ [n]).
Proof. intros H. unfold joinpath. rewrite (parse_plain_name _ H). reflexivity. Qed.


(** *** The file system *)

Lemma mkdir_chain_files (todo done : list string) (root : string) (f f' : FS) :
  mkdir_chain f root done todo = Ok f' -> files f' = files f.
Proof.
  revert done f. induction todo as [|c rest IH]; intros done f; cbn [mkdir_chain].
  - intros [= ->]. reflexivity.
  - destruct (is_file f _).
    + destruct rest; discriminate.
    + intros H. apply IH in H. exact H.
Qed.

Lemma mkdir_chain_dirs (todo done : list string) (root : string) (f f' : FS) :
  mkdir_chain f root done todo = Ok f' ->
  dirs f ⊆ dirs f' /\ (todo <> [] -> mk_path root (done ++ todo) ∈ dirs f').
Proof.
  revert done f. induction todo as [|c rest IH]; intros done f; cbn [mkdir_chain].
  - intros [= ->]. split; [reflexivity | congruence].
  - destruct (is_file f _).
    + destruct rest; discriminate.
    + intros H. destruct (IH _ _ H) as [Hsub Hin]. cbn [add_dir dirs] in Hsub.
      split; [intros x Hx; apply Hsub, elem_of_union_r, Hx|]. intros _.
      destruct rest as [|d rest].
      * apply Hsub, elem_of_union_l, elem_of_singleton. reflexivity.
      * rewrite <- app_assoc in Hin. apply Hin. discriminate.
Qed.

Lemma mkdir_frame (p : Path) (w : World) (r : result unit) (w' : World) :
  mkdir p w = (r, w') ->
  current_user w' = current_user w /\ user_table w' = user_table w
  /\ files (fs w') = files (fs w)
  /\ (r = Ok tt -> is_dir (fs w') p = true).
Proof.
  unfold mkdir, bind, get_fs, lift, put_fs, mkdir_parents_exist_ok.
  destruct (mkdir_chain (fs w) (anchor p) [] (parts p)) as [f'|e] eqn:Hchain.
  - intros [= <- <-]. cbn. repeat split.
    + eapply mkdir_chain_files; exact Hchain.
    + intros _. unfold is_dir. apply mkdir_chain_dirs in Hchain as [_ Hin].
      destruct p as [a [|c ps]]; [reflexivity|].
      cbn [parts anchor] in *. rewrite bool_decide_eq_false_2 by discriminate.
      apply bool_decide_eq_true. apply Hin. discriminate.
  - intros [= <- <-]. repeat split. discriminate.
Qed.

Lemma write_file_files (f f' : FS) (p : Path) (data : bytes) :
  write_file f p data = Ok f' -> files f' = <[p := data]> (files f).
Proof.
  unfold write_file. destruct (is_dir f p); [discriminate|].
  destruct (negb _); [discriminate|]. intros [= <-]. reflexivity.
Qed.

(** *** One file *)

(** [save_image_from_bytes] writes at most one file, at
    [upload_dir / Path(filename).name], and only when it returns. *)
Lemma save_image_frame (content : bytes) (filename : string) (upload_dir : Path)
    (w : World) (r : result Path) (w' : World) :
  save_image content filename upload_dir w = (r, w') ->
  current_user w' = current_user w /\ user_table w' = user_table w /\
  match r with
  | Ok file_path =>
      file_path = joinpath upload_dir (name (parse filename)) /\
      exists data, files (fs w') = <[file_path := data]> (files (fs w))
  | Raise e =>
      files (fs w') = files (fs w) /\ exn_cls e = OSError
  end.
Proof.
  unfold save_image_from_bytes, try_catch. unfold bind at 1.
  destruct (mkdir upload_dir w) as [[[]|e] w1] eqn:Hmkdir;
    apply mkdir_frame in Hmkdir as (Hu & Ht & Hf & _).
  - unfold bind, lift, get_fs, put_fs, ret.
    destruct (Image_open content) as [image|e].
    + destruct (Image_save image _) as [data|e].
      * destruct (write_file (fs w1) _ data) as [f'|e] eqn:Hwrite.
        -- intros [= <- <-]. cbn. repeat split; try assumption.
           exists data. rewrite (write_file_files _ _ _ _ Hwrite), Hf. reflexivity.
        -- rewrite except_Exception_catches_all. unfold raise. intros [= <- <-].
           repeat split; assumption.
      * rewrite except_Exception_catches_all. unfold raise. intros [= <- <-].
        repeat split; assumption.
    + rewrite except_Exception_catches_all. unfold raise. intros [= <- <-].
      repeat split; assumption.
  - rewrite except_Exception_catches_all. unfold raise. intros [= <- <-].
    repeat split; assumption.
Qed.

(** The four steps on one file: a saved name is the base name of a file
    name that passed the extension check, and the one file written lies at
    [image_dir / saved name]; a failure writes no file. *)
Lemma process_file_frame (image_dir : Path) (content filename : string)
    (w : World) (r : result string) (w' : World) :
  process_one image_dir content filename w = (r, w') ->
  current_user w' = current_user w /\ user_table w' = user_table w /\
  match r with
  | Ok saved_name =>
      _validate_file_extension filename = Ok tt /\
      saved_name = name (parse filename) /\
      exists data,
        files (fs w') = <[joinpath image_dir saved_name := data]> (files (fs w))
  | Raise e => files (fs w') = files (fs w)
  end.
Proof.
  unfold process_file, bind, lift, ret.
  destruct (_validate_file_extension filename) as [[]|e] eqn:Hext;
    [|intros [= <- <-]; repeat split].
  destruct (decode_base64_image b64decode content) as [decoded|e];
    [|intros [= <- <-]; repeat split].
  destruct (validate_image_content Image_open Image_verify decoded) as [[]|e];
    [|intros [= <- <-]; repeat split].
  destruct (save_image decoded filename image_dir w) as [[p|e] w1] eqn:Hsave;
    apply save_image_frame in Hsave as (Hu & Ht & Hsave); intros [= <- <-].
  - destruct Hsave as [-> [data Hdata]].
    destruct (valid_extension_name _ Hext) as [_ Hplain].
    assert (Hname : name (joinpath image_dir (name (parse filename))) = name (parse filename)).
    { rewrite (joinpath_plain_name _ _ Hplain). unfold name at 1. cbn [parts].
      apply last_last. }
    rewrite Hname. repeat split; try assumption. exists data. exact Hdata.
  - destruct Hsave as [Hfiles _]. repeat split; assumption.
Qed.

(** A file rejected by one of the three checks leaves the world untouched. *)
Lemma process_file_rejected (image_dir : Path) (content filename : string) (w : World) :
  (forall decoded, _validate_file_extension filename = Ok tt ->
                   decode_base64_image b64decode content = Ok decoded ->
                   validate_image_content Image_open Image_verify decoded = Ok tt -> False) ->
  exists e, process_one image_dir content filename w = (Raise e, w).
Proof.
  intros Hrej. unfold process_file, bind, lift.
  destruct (_validate_file_extension filename) as [[]|e]; [|eauto].
  destruct (decode_base64_image b64decode content) as [decoded|e]; [|eauto].
  destruct (validate_image_content Image_open Image_verify decoded) as [[]|e] eqn:Hvalid;
    [|eauto].
  exfalso. exact (Hrej decoded eq_refl eq_refl Hvalid).
Qed.

(** *** The batch *)

Local Abbreviation run_outcomes := (outcomes b64decode Image_open Image_verify Image_save).

Lemma saved_of_app (os1 os2 : list (string * result string)) :
  saved_of (os1 ++ os2) = saved_of os1 ++ saved_of os2.
Proof.
  induction os1 as [|[f [n|e]] os1 IH]; simpl; [reflexivity | rewrite IH; reflexivity | exact IH].
Qed.

Lemma errors_of_app (os1 os2 : list (string * result string)) :
  errors_of (os1 ++ os2) = errors_of os1 ++ errors_of os2.
Proof.
  induction os1 as [|[f [n|e]] os1 IH]; simpl; [reflexivity | exact IH | rewrite IH; reflexivity].
Qed.

Lemma outcomes_length (os : list (string * result string)) :
  length (saved_of os) + length (errors_of os) = length os.
Proof.
  induction os as [|[f [n|e]] os IH]; simpl; [reflexivity | lia | lia].
Qed.

(** The loop with its two accumulators appends the saved names and the
    error entries of the outcomes, each in input order. *)
Lemma upload_loop_outcomes (image_dir : Path) (pairs : list (string * string))
    (saved errs : list string) (w : World) :
  loop image_dir pairs saved errs w =
    ((saved ++ saved_of (fst (run_outcomes image_dir pairs w)),
      errs ++ errors_of (fst (run_outcomes image_dir pairs w))),
     snd (run_outcomes image_dir pairs w)).
Proof.
  revert saved errs w. induction pairs as [|[content filename] rest IH]; intros saved errs w.
  - cbn. rewrite !app_nil_r. reflexivity.
  - cbn [upload_loop outcomes].
    destruct (process_one image_dir content filename w) as [[n|e] w1].
    + rewrite IH. destruct (run_outcomes image_dir rest w1) as [os w2].
      cbn [fst snd saved_of errors_of]. rewrite <- app_assoc. reflexivity.
    + rewrite IH. destruct (run_outcomes image_dir rest w1) as [os w2].
      cbn [fst snd saved_of errors_of]. rewrite <- app_assoc. reflexivity.
Qed.

Lemma outcomes_names (image_dir : Path) (pairs : list (string * string)) (w : World) :
  map fst (fst (run_outcomes image_dir pairs w)) = map snd pairs.
Proof.
  revert w. induction pairs as [|[content filename] rest IH]; intros w; [reflexivity|].
  cbn [outcomes]. destruct (process_one image_dir content filename w) as [r w1].
  specialize (IH w1). destruct (run_outcomes image_dir rest w1) as [os w2].
  cbn [fst map snd] in *. rewrite IH. reflexivity.
Qed.

(** Processing a batch in two pieces: the second piece starts where the
    first one ended, whatever the first one's outcomes were. *)
Lemma outcomes_app (image_dir : Path) (l1 l2 : list (string * string)) (w : World) :
  run_outcomes image_dir (l1 ++ l2) w =
    (fst (run_outcomes image_dir l1 w)
       ++ fst (run_outcomes image_dir l2 (snd (run_outcomes image_dir l1 w))),
     snd (run_outcomes image_dir l2 (snd (run_outcomes image_dir l1 w)))).
Proof.
  revert w. induction l1 as [|[content filename] l1 IH]; intros w.
  - cbn. destruct (run_outcomes image_dir l2 w); reflexivity.
  - cbn [app outcomes]. destruct (process_one image_dir content filename w) as [r w1].
    rewrite IH. destruct (run_outcomes image_dir l1 w1) as [os1 w2].
    cbn [fst snd]. destruct (run_outcomes image_dir l2 w2) as [os2 w3]. reflexivity.
Qed.

(** The batch run of an authenticated session whose directory exists. *)
Lemma process_batch_outcomes (contents filenames : list string) (w : World) (u : User) :
  current_user w = Some u ->
  username u <> "" ->
  path_exists (fs w) (joinpath DEFAULT_USER_BASE_FOLDER (username u)) = true ->
  let image_dir := joinpath (joinpath DEFAULT_USER_BASE_FOLDER (username u)) "images" in
  let run := run_outcomes image_dir (combine contents filenames) w in
  process_batch contents filenames w =
    (Ok (mk_processed (saved_of (fst run)) (errors_of (fst run))), snd run).
Proof.
  intros Hu Hname Hdir image_dir run.
  unfold _process_uploaded_images, get_current_username, get_user_directory,
    is_authenticated, get_fs, bind, ret, has_user.
  rewrite Hu. cbn [negb]. rewrite Hu.
  apply String.eqb_neq in Hname. rewrite Hname, Hdir. cbn [negb].
  rewrite upload_loop_outcomes. reflexivity.
Qed.

Local Abbreviation decode := (decode_base64_image b64decode).

Lemma decode_failure_recorded (image_dir : Path) (content filename : string) (e : exn)
    (rest : list (string * string)) (saved errs : list string) (w : World) :
  _validate_file_extension filename = Ok tt ->
  decode content = Raise e ->
  loop image_dir ((content, filename) :: rest) saved errs w =
  loop image_dir rest saved (errs ++ [filename +:+ ": " +:+ exn_msg e]) w.
Proof.
  intros Hext Hdec. cbn [upload_loop]. unfold process_file, bind, lift.
  rewrite Hext, Hdec. reflexivity.
Qed.

(** C5: decoding fails when the payload holds no comma and when the text
    after the first comma decodes to no bytes, each time with the message
    "Failed to decode base64 image: <detail>"; the entry recorded for the
    file is then "<filename>: Failed to decode base64 image: <detail>" (the
    file having passed the extension check, which comes first); and the
    bytes returned on success are the base64 decoding of the text after the
    first comma. *)
Theorem decode_base64_image_cases (content_str : string) :
  let failure detail :=
    Raise (mk_exn ValueError ("Failed to decode base64 image: " +:+ detail)) in
  let recorded filename detail :=
    filename +:+ ": Failed to decode base64 image: " +:+ detail in
  (PyStr.has_char "," content_str = false ->
     decode content_str =
       failure "Input string does not contain a comma to split header and data.") /\
  (forall header body,
     content_str = header +:+ "," +:+ body -> PyStr.has_char "," header = false ->
     b64decode body = Ok [] ->
     decode content_str = failure "Decoded image content is empty.") /\
  (forall image_dir filename detail rest saved errs w,
     _validate_file_extension filename = Ok tt ->
     decode content_str = failure detail ->
     loop image_dir ((content_str, filename) :: rest) saved errs w =
     loop image_dir rest saved (errs ++ [recorded filename detail]) w) /\
  (forall data,
     decode content_str = Ok data ->
     data <> [] /\
     exists header body,
       content_str = header +:+ "," +:+ body /\ PyStr.has_char "," header = false /\
       b64decode body = Ok data).
Proof.
  cbv zeta. repeat split.
  - intros Hcomma. unfold decode_base64_image. rewrite contains_char, Hcomma. reflexivity.
  - intros header body -> Hheader Hbody. unfold decode_base64_image.
    assert (Hsplit : PyStr.split1 "," (header +:+ "," +:+ body) = Some (header, body)).
    { apply split1_Some. split; [reflexivity | exact Hheader]. }
    rewrite contains_char.
    assert (Hhas : PyStr.has_char "," (header +:+ "," +:+ body) = true).
    { clear. induction header as [|c h IH]; simpl in *; [reflexivity|].
      rewrite IH. apply orb_true_r. }
    rewrite Hhas, Hsplit. cbn [negb rbind]. rewrite Hbody. reflexivity.
  - intros image_dir filename detail rest saved errs w Hext Hdec.
    rewrite (decode_failure_recorded _ _ _ _ _ _ _ _ Hext Hdec). reflexivity.
  - unfold decode_base64_image in H. rewrite contains_char in H.
    destruct (PyStr.has_char "," content_str); [|discriminate].
    destruct (PyStr.split1 "," content_str) as [[header body]|]; [|discriminate].
    cbn [negb rbind try_except] in H.
    destruct (b64decode body) as [[|b bs]|e].
    + discriminate.
    + injection H as <-. discriminate.
    + cbn in H. destruct (_ || _); discriminate.
  - unfold decode_base64_image in H. rewrite contains_char in H.
    destruct (PyStr.has_char "," content_str); [|discriminate].
    destruct (PyStr.split1 "," content_str) as [[header body]|] eqn:Hsplit; [|discriminate].
    apply split1_Some in Hsplit as [-> Hheader].
    exists header, body. cbn [negb rbind try_except] in H.
    destruct (b64decode body) as [[|b bs]|e].
    + discriminate.
    + injection H as <-. repeat split. exact Hheader.
    + cbn in H. destruct (_ || _); discriminate.
Qed.

Lemma is_file_insert (f : FS) (p q : Path) (data : bytes) (m : gmap Path bytes) :
  m = <[p := data]> (files f) ->
  bool_decide (is_Some (m !! p)) = true /\
  (is_file f q = true -> bool_decide (is_Some (m !! q)) = true).
Proof.
  intros ->. split.
  - apply bool_decide_eq_true. rewrite lookup_insert_eq. eauto.
  - unfold is_file. intros H. apply bool_decide_eq_true in H. apply bool_decide_eq_true.
    destruct (decide (p = q)) as [->|Hne].
    + rewrite lookup_insert_eq. eauto.
    + rewrite lookup_insert_ne by exact Hne. exact H.
Qed.

(** What a batch run leaves behind: every saved name is the base name of
    one of the files, holds no separator, and names a file that now exists
    in the image directory; no file outside these was written; no file
    disappeared. *)
Lemma outcomes_frame (image_dir : Path) (pairs : list (string * string)) (w : World) :
  let os := fst (run_outcomes image_dir pairs w) in
  let w' := snd (run_outcomes image_dir pairs w) in
  Forall (fun n => plain_name n = true /\
                   (exists filename, In filename (map snd pairs) /\ n = name (parse filename)) /\
                   is_file (fs w') (joinpath image_dir n) = true) (saved_of os) /\
  (forall p, files (fs w') !! p <> files (fs w) !! p ->
             exists n, In n (saved_of os) /\ p = joinpath image_dir n) /\
  (forall p, is_file (fs w) p = true -> is_file (fs w') p = true).
Proof.
  revert w. induction pairs as [|[content filename] rest IH]; intros w.
  - cbn. split; [constructor|]. split; [congruence | auto].
  - cbn [outcomes].
    destruct (process_one image_dir content filename w) as [r w1] eqn:Hone.
    specialize (IH w1). destruct (run_outcomes image_dir rest w1) as [os w2].
    cbn [fst snd] in *. destruct IH as (Hsaved & Hframe & Hkeep).
    apply process_file_frame in Hone as (_ & _ & Hone).
    assert (Hrest : Forall (fun n => plain_name n = true /\
                     (exists f, In f (map snd ((content, filename) :: rest)) /\ n = name (parse f)) /\
                     is_file (fs w2) (joinpath image_dir n) = true) (saved_of os)).
    { eapply List.Forall_impl; [|exact Hsaved].
      intros n (Hn & (f & Hf & Hnf) & Hfile). repeat split; [exact Hn | | exact Hfile].
      exists f. split; [right; exact Hf | exact Hnf]. }
    destruct r as [n|e]; cbn [saved_of].
    + destruct Hone as (Hext & -> & data & Hdata).
      destruct (is_file_insert _ _ (joinpath image_dir (name (parse filename))) _ _ Hdata)
        as [Hnew _].
      split; [constructor; [|exact Hrest]|split].
      * split; [apply valid_extension_name; exact Hext|]. split.
        -- exists filename. split; [left; reflexivity | reflexivity].
        -- apply Hkeep. exact Hnew.
      * intros p Hp.
        destruct (decide (files (fs w2) !! p = files (fs w1) !! p)) as [Heq|Hne].
        -- exists (name (parse filename)). split; [left; reflexivity|].
           rewrite Heq, Hdata in Hp.
           destruct (decide (joinpath image_dir (name (parse filename)) = p)) as [<-|Hpq];
             [reflexivity|].
           rewrite lookup_insert_ne in Hp by exact Hpq. congruence.
        -- destruct (Hframe p Hne) as (n & Hn & ->). exists n. split; [right; exact Hn | reflexivity].
      * intros p Hp. apply Hkeep.
        exact (proj2 (is_file_insert _ (joinpath image_dir (name (parse filename))) p _ _ Hdata) Hp).
    + split; [exact Hrest|split].
      * intros p Hp. apply Hframe. rewrite Hone. exact Hp.
      * intros p Hp. apply Hkeep. unfold is_file. rewrite Hone. exact Hp.
Qed.

Lemma process_batch_ok (contents filenames : list string) (w : World) (u : User)
    (info : ProcessedFileInfo) (w' : World) :
  current_user w = Some u ->
  process_batch contents filenames w = (Ok info, w') ->
  username u <> "" /\
  path_exists (fs w) (joinpath DEFAULT_USER_BASE_FOLDER (username u)) = true.
Proof.
  intros Hu. unfold _process_uploaded_images, get_current_username, get_user_directory,
    is_authenticated, get_fs, bind, ret, raise, has_user.
  rewrite Hu. cbn [negb]. rewrite Hu.
  destruct (String.eqb_spec (username u) "") as [|Hname]; [discriminate|].
  destruct (path_exists _ _); [|discriminate]. intros _. split; [exact Hname | reflexivity].
Qed.


(** C6: in one batch every file gets its own outcome, in input order: the
    file is processed from the world its predecessors left, whatever their
    outcomes, and the files after it are processed whatever its own outcome;
    [saved_files] and [errors] are the saved names and the error entries of
    these outcomes, each in input order; and a file rejected by one of the
    checks could be removed from the batch without changing what is saved
    for the others. *)
Theorem batch_files_independent_in_order (contents filenames : list string)
    (w : World) (u : User) :
  current_user w = Some u ->
  username u <> "" ->
  path_exists (fs w) (joinpath DEFAULT_USER_BASE_FOLDER (username u)) = true ->
  let image_dir := joinpath (joinpath DEFAULT_USER_BASE_FOLDER (username u)) "images" in
  let pairs := combine contents filenames in
  exists os w',
    run_outcomes image_dir pairs w = (os, w') /\
    process_batch contents filenames w =
      (Ok (mk_processed (saved_of os) (errors_of os)), w') /\
    map fst os = map snd pairs /\
    length (saved_of os) + length (errors_of os) = length pairs /\
    (forall before content filename after,
       pairs = before ++ (content, filename) :: after ->
       exists os1 w1 r w2 os2,
         run_outcomes image_dir before w = (os1, w1) /\
         process_one image_dir content filename w1 = (r, w2) /\
         run_outcomes image_dir after w2 = (os2, w') /\
         os = os1 ++ (filename, r) :: os2 /\
         saved_of os = saved_of os1 ++ saved_of [(filename, r)] ++ saved_of os2 /\
         errors_of os = errors_of os1 ++ errors_of [(filename, r)] ++ errors_of os2) /\
    (forall before content filename after,
       pairs = before ++ (content, filename) :: after ->
       (forall decoded, _validate_file_extension filename = Ok tt ->
                        decode content = Ok decoded ->
                        validate_image_content Image_open Image_verify decoded = Ok tt ->
                        False) ->
       saved_of (fst (run_outcomes image_dir (before ++ after) w)) = saved_of os /\
       snd (run_outcomes image_dir (before ++ after) w) = w').
Proof.
  intros Hu Hname Hdir image_dir pairs.
  destruct (run_outcomes image_dir pairs w) as [os w'] eqn:Hrun.
  exists os, w'. split; [reflexivity|]. split.
  { rewrite (process_batch_outcomes _ _ _ _ Hu Hname Hdir). fold image_dir pairs.
    rewrite Hrun. reflexivity. }
  split.
  { pose proof (outcomes_names image_dir pairs w) as H. rewrite Hrun in H. exact H. }
  split.
  { rewrite outcomes_length.
    pose proof (outcomes_names image_dir pairs w) as H. rewrite Hrun in H.
    apply (f_equal (@length string)) in H. rewrite !length_map in H. exact H. }
  split.
  - intros before content filename after Hpairs.
    rewrite Hpairs, outcomes_app in Hrun.
    destruct (run_outcomes image_dir before w) as [os1 w1] eqn:H1.
    cbn [fst snd outcomes] in Hrun.
    destruct (process_one image_dir content filename w1) as [r w2] eqn:H2.
    destruct (run_outcomes image_dir after w2) as [os2 w3] eqn:H3.
    cbn [fst snd] in Hrun. injection Hrun as <- <-.
    exists os1, w1, r, w2, os2.
    split; [reflexivity|]. split; [exact H2|]. split; [exact H3|].
    split; [reflexivity|]. split.
    + change ((filename, r) :: os2) with ([(filename, r)] ++ os2).
      rewrite !saved_of_app. reflexivity.
    + change ((filename, r) :: os2) with ([(filename, r)] ++ os2).
      rewrite !errors_of_app. reflexivity.
  - intros before content filename after Hpairs Hrej.
    rewrite Hpairs, outcomes_app in Hrun. rewrite outcomes_app.
    destruct (run_outcomes image_dir before w) as [os1 w1].
    cbn [fst snd outcomes] in *.
    destruct (process_file_rejected image_dir content filename w1 Hrej) as [e He].
    rewrite He in Hrun.
    destruct (run_outcomes image_dir after w1) as [os2 w3].
    cbn [fst snd] in *. injection Hrun as <- <-.
    rewrite !saved_of_app. split; reflexivity.
Qed.

End UploadProperties.

(** ** The archive *)

Section ArchiveProperties.

Context {Img ndarray : Type}.
Variable Image_fromarray : ndarray -> result Img.
Variable Image_save_tiff : Img -> result bytes.

Local Abbreviation tiff_bytes := (get_tiff_bytes Image_fromarray Image_save_tiff).
Local Abbreviation build_archive := (create_tif_zip_archive Image_fromarray Image_save_tiff).
Local Abbreviation entries_from := (write_entries Image_fromarray Image_save_tiff).

(** [get_tiff_bytes] returns exactly when Pillow converts and encodes the
    array, and then returns the encoded bytes. *)
Lemma get_tiff_bytes_ok (array : ndarray) (data : bytes) :
  tiff_bytes array = Ok data <->
  exists image, Image_fromarray array = Ok image /\ Image_save_tiff image = Ok data.
Proof.
  unfold get_tiff_bytes, try_except, rbind. split.
  - destruct (Image_fromarray array) as [image|e].
    + destruct (Image_save_tiff image) as [d|e] eqn:Hsave.
      * intros [= <-]. eauto.
      * rewrite except_Exception_catches_all. discriminate.
    + rewrite except_Exception_catches_all. discriminate.
  - intros (image & -> & ->). reflexivity.
Qed.

Lemma get_tiff_bytes_raises (array : ndarray) (e : exn) :
  tiff_bytes array = Raise e ->
  exn_cls e = OSError /\
  exists cause, exn_msg e = "Failed to convert image array to TIFF image bytes: " +:+ cause.
Proof.
  unfold get_tiff_bytes, try_except, rbind.
  destruct (Image_fromarray array) as [image|e0].
  - destruct (Image_save_tiff image) as [d|e0]; [discriminate|].
    rewrite except_Exception_catches_all. intros [= <-]. cbn. eauto.
  - rewrite except_Exception_catches_all. intros [= <-]. cbn. eauto.
Qed.




End ArchiveProperties.

(** ** The storage layout *)

Section StorageProperties.

Variable DEFAULT_USER_BASE_FOLDER : Path.
Variable check_password_hash : string -> string -> bool.

Local Abbreviation user_directory := (get_user_directory DEFAULT_USER_BASE_FOLDER).
Local Abbreviation make_user_directory := (create_user_directory DEFAULT_USER_BASE_FOLDER).
Local Abbreviation log_in := (authenticate_user DEFAULT_USER_BASE_FOLDER check_password_hash).

Lemma create_user_directory_ok (name : string) (w w' : World) :
  make_user_directory name w = (Ok tt, w') ->
  is_dir (fs w') (joinpath DEFAULT_USER_BASE_FOLDER name) = true.
Proof.
  unfold create_user_directory, try_catch.
  destruct (mkdir (joinpath DEFAULT_USER_BASE_FOLDER name) w) as [[[]|e] w1] eqn:Hmkdir.
  - intros [= <-]. apply mkdir_frame in Hmkdir as (_ & _ & _ & Hdir). apply Hdir. reflexivity.
  - rewrite except_Exception_catches_all. unfold raise. discriminate.
Qed.

Lemma get_user_directory_existing (name : string) (w : World) :
  path_exists (fs w) (joinpath DEFAULT_USER_BASE_FOLDER name) = true ->
  user_directory name w = (Ok (joinpath DEFAULT_USER_BASE_FOLDER name), w).
Proof.
  intros H. unfold get_user_directory, bind, get_fs, ret. rewrite H. reflexivity.
Qed.

(** C8, as the code has it: resolving a user name never changes the file
    system; it returns [<base>/<username>] when that path exists and raises
    [FileNotFoundError] when it does not.  The directory is created by
    [create_user_directory], which a successful login runs: after either,
    resolving returns the path. *)
Theorem user_directory_resolution (name : string) (w : World) :
  let user_dir := joinpath DEFAULT_USER_BASE_FOLDER name in
  (path_exists (fs w) user_dir = true -> user_directory name w = (Ok user_dir, w)) /\
  (path_exists (fs w) user_dir = false ->
     user_directory name w =
       (Raise (mk_exn FileNotFoundError
                 ("User directory does not exist: " +:+ to_string user_dir)), w)) /\
  (forall w', make_user_directory name w = (Ok tt, w') ->
              user_directory name w' = (Ok user_dir, w')) /\
  (forall password msg w',
     log_in name password w = (Ok (true, msg), w') ->
     user_directory name w' = (Ok user_dir, w')).
Proof.
  cbv zeta. split; [apply get_user_directory_existing|]. split; [|split].
  - intros H. unfold get_user_directory, bind, get_fs, raise. rewrite H. reflexivity.
  - intros w' H. apply get_user_directory_existing. unfold path_exists.
    rewrite (create_user_directory_ok _ _ _ H). reflexivity.
  - intros password msg w'. unfold authenticate_user, query_first. unfold bind at 1.
    destruct (filter_by_username name (user_table w)) as [u|] eqn:Hfind;
      [|unfold ret; discriminate].
    apply find_some in Hfind as [_ Hu]. apply String.eqb_eq in Hu.
    destruct (check_password_hash _ _); cbn [negb]; [|unfold ret; discriminate].
    unfold bind, login_user, ret. rewrite Hu.
    destruct (make_user_directory name (set_current_user (Some u) w)) as [[[]|e] w1] eqn:Hmk;
      [|discriminate].
    intros [= _ <-]. apply get_user_directory_existing. unfold path_exists.
    rewrite (create_user_directory_ok _ _ _ Hmk). reflexivity.
Qed.

End StorageProperties.

(** ** Registration *)

Section RegistrationProperties.

Variable generate_password_hash : string -> string.

Local Abbreviation register := (register_user generate_password_hash).

Lemma find_app_new {A} (f : A -> bool) (l : list A) (x : A) :
  List.find f l = None -> f x = true -> List.find f (l ++ [x]) = Some x.
Proof.
  intros Hl Hx. induction l as [|a l IH]; simpl in *.
  - rewrite Hx. reflexivity.
  - destruct (f a); [discriminate | apply IH; exact Hl].
Qed.

(** C9: registering a user name that the table does not hold succeeds with
    the message "Registration successful. You can now log in with your new
    account." and appends one row for that name; registering the same name
    again, with any password, fails with "Username already exists" and
    leaves the table as it is. *)
Theorem register_then_duplicate (name password other_password : string) (w : World) :
  filter_by_username name (user_table w) = None ->
  exists new_user w1,
    register name password w =
      (Ok (true, "Registration successful. You can now log in with your new account."), w1) /\
    user_table w1 = user_table w ++ [new_user] /\
    username new_user = name /\
    hashed_password new_user = generate_password_hash password /\
    filter_by_username name (user_table w1) = Some new_user /\
    register name other_password w1 = (Ok (false, "Username already exists"), w1).
Proof.
  intros Hfresh.
  set (new_user := mk_user (next_id (user_table w)) name (generate_password_hash password)).
  exists new_user, (set_user_table (user_table w ++ [new_user]) w).
  assert (Hfound : filter_by_username name (user_table w ++ [new_user]) = Some new_user).
  { apply find_app_new; [exact Hfresh | apply String.eqb_refl]. }
  split.
  { unfold register_user, bind, query_first, session_add_commit, ret. rewrite Hfresh. reflexivity. }
  repeat split; try assumption.
  unfold register_user, bind, query_first, ret. cbn [user_table set_user_table].
  rewrite Hfound. reflexivity.
Qed.

End RegistrationProperties.

(** ** The statements on concrete runs *)

Section ConcreteRuns.

Import Collaborators.

Local Abbreviation upload :=
  (handle_image_upload DEFAULT_USER_BASE_FOLDER b64decode Image_open Image_verify Image_save).
Local Abbreviation batch :=
  (_process_uploaded_images DEFAULT_USER_BASE_FOLDER b64decode Image_open Image_verify Image_save).
Local Abbreviation images_of_alice := (parse "/data/users/alice/images").

Lemma auth_guard_decision_witness :
  auth_guard_and_logout pages "/login" (Some 0%Z) signed_in
  = (Ok (RedirectTo "/select-images"), signed_in).
Proof.
  destruct (auth_guard_decision pages "/login" (Some 0%Z) signed_in) as (_ & _ & H & _).
  apply H; [reflexivity | reflexivity | discriminate].
Defined.

Lemma upload_requires_login_witness :
  has_user signed_out = false /\
  (upload None (Some []) signed_out =
     (Ok (mk_response "error" "You must be logged in to upload images." [] []), signed_out)
   /\ fst (upload None (Some []) signed_out) <> Ok _empty_upload_response).
Proof.
  split; [reflexivity|].
  apply (upload_requires_login DEFAULT_USER_BASE_FOLDER b64decode Image_open Image_verify
           Image_save None (Some []) signed_out).
  reflexivity.
Defined.

(** Two payloads for one file name: the pair is processed and the file is
    written, where C4 expects the empty answer and nothing persisted. *)
Lemma upload_unequal_lengths_counterexample :
  let contents := [png_payload; png_payload] in
  let filenames := ["cell.png"] in
  let run := upload (Some contents) (Some filenames) signed_in in
  length contents <> length filenames /\
  fst run = Ok (mk_response "success" "Upload completed" ["cell.png"] []) /\
  fst run <> Ok _empty_upload_response /\
  is_file (fs signed_in) (joinpath images_of_alice "cell.png") = false /\
  is_file (fs (snd run)) (joinpath images_of_alice "cell.png") = true.
Proof.
  cbv zeta. split; [simpl; lia|].
  assert (H : fst (upload (Some [png_payload; png_payload]) (Some ["cell.png"]) signed_in)
              = Ok (mk_response "success" "Upload completed" ["cell.png"] []))
    by (vm_compute; reflexivity).
  split; [exact H|]. split; [rewrite H; discriminate|].
  split; vm_compute; reflexivity.
Qed.

Lemma upload_no_files_or_truncated_witness :
  has_user signed_in = true /\
  ((truthy_list (Some [png_payload]) = false \/ truthy_list (@None (list string)) = false ->
      upload (Some [png_payload]) None signed_in = (Ok _empty_upload_response, signed_in)) /\
   (forall cs fs, Some [png_payload] = Some cs -> None = Some fs ->
      let n := Nat.min (length cs) (length fs) in
      upload (Some [png_payload]) None signed_in =
      upload (Some (firstn n cs)) (Some (firstn n fs)) signed_in)).
Proof.
  split; [reflexivity|].
  apply (upload_no_files_or_truncated DEFAULT_USER_BASE_FOLDER b64decode Image_open
           Image_verify Image_save (Some [png_payload]) None signed_in).
  reflexivity.
Defined.

Lemma upload_kind_invariant_witness :
  has_user signed_in = true /\
  exists r w',
    upload (Some [png_payload; "no comma"]) (Some ["cell.png"; "notes.txt"]) signed_in
      = (Ok r, w') /\
    (type r = "success" <-> errors r = [] /\ valid_files r <> []) /\
    (type r = "partial_success" <-> valid_files r <> [] /\ errors r <> []) /\
    (type r = "error" <->
       valid_files r = [] /\
       combine (or_list (Some [png_payload; "no comma"]) [])
               (or_list (Some ["cell.png"; "notes.txt"]) []) <> []) /\
    (type r = "empty" <->
       combine (or_list (Some [png_payload; "no comma"]) [])
               (or_list (Some ["cell.png"; "notes.txt"]) []) = []).
Proof.
  split; [reflexivity|].
  apply (upload_kind_invariant DEFAULT_USER_BASE_FOLDER b64decode Image_open Image_verify
           Image_save (Some [png_payload; "no comma"]) (Some ["cell.png"; "notes.txt"])
           signed_in).
  reflexivity.
Defined.

Example upload_partial_success :
  fst (upload (Some [png_payload; "no comma"; png_payload])
              (Some ["plates/cell.PNG"; "cell2.png"; "notes.txt"]) signed_in)
  = Ok (mk_response "partial_success" "Upload completed" ["cell.PNG"]
          ["cell2.png: Failed to decode base64 image: Input string does not contain a comma to split header and data.";
           "notes.txt: Unsupported file type: notes.txt"]).
Proof. vm_compute. reflexivity. Qed.

Lemma decode_base64_image_cases_witness :
  decode_base64_image b64decode "data:image/png;base64," =
    Raise (mk_exn ValueError "Failed to decode base64 image: Decoded image content is empty.").
Proof.
  destruct (decode_base64_image_cases b64decode Image_open Image_verify Image_save
              "data:image/png;base64,") as (_ & H & _).
  apply (H "data:image/png;base64" ""); reflexivity.
Defined.


Lemma batch_files_independent_in_order_witness :
  current_user signed_in = Some alice /\
  username alice <> "" /\
  path_exists (fs signed_in) (joinpath DEFAULT_USER_BASE_FOLDER (username alice)) = true /\
  exists os w',
    outcomes b64decode Image_open Image_verify Image_save
      (joinpath (joinpath DEFAULT_USER_BASE_FOLDER (username alice)) "images")
      (combine ["no comma"; png_payload] ["first.png"; "second.png"]) signed_in = (os, w') /\
    batch ["no comma"; png_payload] ["first.png"; "second.png"] signed_in =
      (Ok (mk_processed (saved_of os) (errors_of os)), w').
Proof.
  split; [reflexivity|]. split; [discriminate|]. split; [reflexivity|].
  destruct (batch_files_independent_in_order DEFAULT_USER_BASE_FOLDER b64decode Image_open
              Image_verify Image_save ["no comma"; png_payload] ["first.png"; "second.png"]
              signed_in alice eq_refl ltac:(discriminate) eq_refl)
    as (os & w' & Hos & Hbatch & _).
  exists os, w'. split; [exact Hos | exact Hbatch].
Defined.

Example failure_does_not_stop_the_batch :
  fst (batch ["no comma"; png_payload] ["first.png"; "second.png"] signed_in)
  = Ok (mk_processed ["second.png"]
          ["first.png: Failed to decode base64 image: Input string does not contain a comma to split header and data."]).
Proof. vm_compute. reflexivity. Qed.



(** Bob never signed in, so his directory does not exist: resolving it
    raises and creates nothing, where C8 expects the directory to be
    created and returned. *)
Lemma user_directory_not_created_counterexample :
  let run := get_user_directory DEFAULT_USER_BASE_FOLDER "bob" signed_in in
  path_exists (fs signed_in) (joinpath DEFAULT_USER_BASE_FOLDER "bob") = false /\
  run = (Raise (mk_exn FileNotFoundError "User directory does not exist: /data/users/bob"),
         signed_in) /\
  path_exists (fs (snd run)) (joinpath DEFAULT_USER_BASE_FOLDER "bob") = false.
Proof. cbv zeta. repeat split; vm_compute; reflexivity. Qed.

Lemma user_directory_resolution_witness :
  get_user_directory DEFAULT_USER_BASE_FOLDER "alice" signed_in
  = (Ok (joinpath DEFAULT_USER_BASE_FOLDER "alice"), signed_in).
Proof.
  destruct (user_directory_resolution DEFAULT_USER_BASE_FOLDER (fun _ _ => true)
              "alice" signed_in) as (H & _).
  apply H. vm_compute. reflexivity.
Defined.

Example login_creates_the_directory :
  let w := snd (authenticate_user DEFAULT_USER_BASE_FOLDER (fun h p => String.eqb h ("pbkdf2:" +:+ p))
                  "alice" "pw123" (mk_world None [alice] empty_fs)) in
  fst (get_user_directory DEFAULT_USER_BASE_FOLDER "alice" (mk_world None [alice] empty_fs))
    = Raise (mk_exn FileNotFoundError "User directory does not exist: /data/users/alice")
  /\ fst (get_user_directory DEFAULT_USER_BASE_FOLDER "alice" w)
    = Ok (parse "/data/users/alice").
Proof. cbv zeta. split; vm_compute; reflexivity. Qed.

Lemma register_then_duplicate_witness :
  filter_by_username "alice" (user_table (mk_world None [] empty_fs)) = None /\
  exists new_user w1,
    register_user generate_password_hash "alice" "pw123" (mk_world None [] empty_fs) =
      (Ok (true, "Registration successful. You can now log in with your new account."), w1) /\
    user_table w1 = user_table (mk_world None [] empty_fs) ++ [new_user] /\
    username new_user = "alice" /\
    hashed_password new_user = generate_password_hash "pw123" /\
    filter_by_username "alice" (user_table w1) = Some new_user /\
    register_user generate_password_hash "alice" "other" w1 =
      (Ok (false, "Username already exists"), w1).
Proof.
  split; [reflexivity|].
  apply (register_then_duplicate generate_password_hash "alice" "pw123" "other"
           (mk_world None [] empty_fs)).
  reflexivity.
Defined.

End ConcreteRuns.

(** * Further properties of the code *)

(** ** Login, registration and the session *)

Lemma get_current_username_signed_in (w : World) (u : User) :
  current_user w = Some u -> get_current_username w = (Ok (username u), w).
Proof.
  intros Hu. unfold get_current_username, bind, is_authenticated, has_user.
  rewrite Hu. cbn. rewrite Hu. reflexivity.
Qed.

Lemma mkdir_parents_ok (f f' : FS) (p : Path) :
  mkdir_parents_exist_ok f p = Ok f' ->
  files f' = files f /\ dirs f ⊆ dirs f' /\ is_dir f' p = true.
Proof.
  unfold mkdir_parents_exist_ok. intros Hmk.
  split; [exact (mkdir_chain_files _ _ _ _ _ Hmk)|].
  destruct (mkdir_chain_dirs _ _ _ _ _ Hmk) as [Hsub Hin]. split; [exact Hsub|].
  unfold is_dir. destruct p as [a [|c ps]]; [reflexivity|].
  cbn [parts anchor] in *. rewrite bool_decide_eq_false_2 by discriminate.
  apply bool_decide_eq_true. apply Hin. discriminate.
Qed.

Section SessionProperties.

Variable DEFAULT_USER_BASE_FOLDER : Path.
Variable generate_password_hash : string -> string.
Variable check_password_hash : string -> string -> bool.

Local Abbreviation sign_in := (authenticate_user DEFAULT_USER_BASE_FOLDER check_password_hash).
Local Abbreviation sign_up := (register_user generate_password_hash).
Local Abbreviation resolve := (get_user_directory DEFAULT_USER_BASE_FOLDER).

(** Every way [authenticate_user] can end, read off its branches. *)
Lemma authenticate_user_run (name password : string) (w : World) :
  sign_in name password w =
    match filter_by_username name (user_table w) with
    | None => (Ok (false, "Invalid username or password."), w)
    | Some u =>
        if check_password_hash (hashed_password u) password then
          match mkdir_parents_exist_ok (fs w) (joinpath DEFAULT_USER_BASE_FOLDER (username u)) with
          | Ok f' => (Ok (true, "Login successful. Redirecting..."),
                      set_fs f' (set_current_user (Some u) w))
          | Raise _ =>
              (Raise (mk_exn OSError ("Failed to create user directory for " +:+ username u)),
               set_current_user (Some u) w)
          end
        else (Ok (false, "Invalid username or password."), w)
    end.
Proof.
  unfold authenticate_user, query_first. unfold bind at 1.
  destruct (filter_by_username name (user_table w)) as [u|]; [|reflexivity].
  destruct (check_password_hash _ _); cbn [negb]; [|reflexivity].
  unfold bind at 1. unfold login_user. unfold bind at 1.
  unfold create_user_directory, try_catch, mkdir, bind, get_fs, lift, put_fs, raise, ret.
  cbn [fs set_current_user].
  destruct (mkdir_parents_exist_ok (fs w) _) as [f'|e]; [reflexivity|].
  rewrite except_Exception_catches_all. reflexivity.
Qed.

Lemma filter_by_username_found (name : string) (table : list User) (u : User) :
  filter_by_username name table = Some u -> In u table /\ username u = name.
Proof.
  intros H. apply find_some in H as [Hin Hname]. apply String.eqb_eq in Hname. auto.
Qed.

(** X1: a login that is refused (unknown name or wrong password) answers
    "Invalid username or password." and changes nothing: session, user
    table and file system are as before. *)
Theorem refused_login_changes_nothing (name password msg : string) (w w' : World) :
  sign_in name password w = (Ok (false, msg), w') ->
  msg = "Invalid username or password." /\ w' = w /\
  (filter_by_username name (user_table w) = None \/
   exists u, filter_by_username name (user_table w) = Some u /\
             check_password_hash (hashed_password u) password = false).
Proof.
  rewrite authenticate_user_run.
  destruct (filter_by_username name (user_table w)) as [u|].
  - destruct (check_password_hash (hashed_password u) password) eqn:Hcheck.
    + destruct (mkdir_parents_exist_ok _ _); discriminate.
    + intros [= <- <-]. repeat split. right. exists u. auto.
  - intros [= <- <-]. repeat split. left. reflexivity.
Qed.

(** X2: a login that succeeds signs in the stored user of that name whose
    hash matches the password, leaves the user table and every file as they
    were, only adds directories, and makes the user's directory exist; the
    session then reports that user name. *)
Theorem successful_login_effects (name password msg : string) (w w' : World) :
  sign_in name password w = (Ok (true, msg), w') ->
  msg = "Login successful. Redirecting..." /\
  (exists u, filter_by_username name (user_table w) = Some u /\
             username u = name /\
             check_password_hash (hashed_password u) password = true /\
             current_user w' = Some u) /\
  user_table w' = user_table w /\
  files (fs w') = files (fs w) /\
  dirs (fs w) ⊆ dirs (fs w') /\
  is_dir (fs w') (joinpath DEFAULT_USER_BASE_FOLDER name) = true /\
  get_current_username w' = (Ok name, w') /\
  resolve name w' = (Ok (joinpath DEFAULT_USER_BASE_FOLDER name), w').
Proof.
  rewrite authenticate_user_run.
  destruct (filter_by_username name (user_table w)) as [u|] eqn:Hfind; [|discriminate].
  destruct (filter_by_username_found _ _ _ Hfind) as [_ Hname].
  destruct (check_password_hash (hashed_password u) password) eqn:Hcheck; [|discriminate].
  rewrite Hname.
  destruct (mkdir_parents_exist_ok (fs w) _) as [f'|e] eqn:Hmk; [|discriminate].
  intros [= <- <-].
  destruct (mkdir_parents_ok _ _ _ Hmk) as (Hfiles & Hsub & Hdir).
  split; [reflexivity|]. split; [exists u; auto|].
  split; [reflexivity|]. split; [exact Hfiles|]. split; [exact Hsub|].
  split; [exact Hdir|]. split.
  - unfold get_current_username, bind, is_authenticated, has_user. cbn. rewrite Hname.
    reflexivity.
  - unfold get_user_directory, bind, get_fs, ret, path_exists. cbn [fs set_fs].
    rewrite Hdir. reflexivity.
Qed.

(** X3: [authenticate_user] raises only when the user's directory cannot
    be created, always as "Failed to create user directory for <name>"; the
    session is signed in by then, since [login_user] runs first. *)
Theorem login_raises_after_signing_in (name password : string) (e : exn) (w w' : World) :
  sign_in name password w = (Raise e, w') ->
  e = mk_exn OSError ("Failed to create user directory for " +:+ name) /\
  (exists u, current_user w' = Some u /\ username u = name) /\
  is_ok (mkdir_parents_exist_ok (fs w) (joinpath DEFAULT_USER_BASE_FOLDER name)) = false.
Proof.
  rewrite authenticate_user_run.
  destruct (filter_by_username name (user_table w)) as [u|] eqn:Hfind; [|discriminate].
  destruct (filter_by_username_found _ _ _ Hfind) as [_ Hname].
  destruct (check_password_hash (hashed_password u) password); [|discriminate].
  rewrite Hname.
  destruct (mkdir_parents_exist_ok (fs w) _) as [f'|e0]; [discriminate|].
  intros [= <- <-]. split; [reflexivity|]. split; [|reflexivity].
  exists u. split; [reflexivity | exact Hname].
Qed.

(** X4: registration followed by login with the same credentials: when
    the name is free, the hash of a password checks against that password,
    and no regular file is in the way of the user's directory, the
    registration succeeds, the login succeeds, and the session reports the
    registered name. *)
Theorem register_then_login (name password : string) (w : World) :
  filter_by_username name (user_table w) = None ->
  check_password_hash (generate_password_hash password) password = true ->
  is_ok (mkdir_parents_exist_ok (fs w) (joinpath DEFAULT_USER_BASE_FOLDER name)) = true ->
  exists w1 w2,
    sign_up name password w =
      (Ok (true, "Registration successful. You can now log in with your new account."), w1) /\
    sign_in name password w1 = (Ok (true, "Login successful. Redirecting..."), w2) /\
    get_current_username w2 = (Ok name, w2) /\
    resolve name w2 = (Ok (joinpath DEFAULT_USER_BASE_FOLDER name), w2).
Proof.
  intros Hfresh Hcheck Hmk.
  set (u := mk_user (next_id (user_table w)) name (generate_password_hash password)).
  set (w1 := set_user_table (user_table w ++ [u]) w).
  assert (Hreg : sign_up name password w =
            (Ok (true, "Registration successful. You can now log in with your new account."), w1)).
  { unfold register_user, bind, query_first, session_add_commit, ret. rewrite Hfresh.
    reflexivity. }
  assert (Hfound : filter_by_username name (user_table w1) = Some u).
  { apply find_app_new; [exact Hfresh | apply String.eqb_refl]. }
  destruct (mkdir_parents_exist_ok (fs w) (joinpath DEFAULT_USER_BASE_FOLDER name))
    as [f'|e0] eqn:Hmkdir; [|discriminate].
  assert (Hlogin : sign_in name password w1 =
            (Ok (true, "Login successful. Redirecting..."),
             set_fs f' (set_current_user (Some u) w1))).
  { rewrite authenticate_user_run, Hfound. cbn [hashed_password u username].
    rewrite Hcheck. cbn [fs w1 set_user_table]. rewrite Hmkdir. reflexivity. }
  exists w1, (set_fs f' (set_current_user (Some u) w1)).
  split; [exact Hreg|]. split; [exact Hlogin|].
  destruct (mkdir_parents_ok _ _ _ Hmkdir) as (_ & _ & Hdir).
  split.
  - apply (get_current_username_signed_in _ u). reflexivity.
  - unfold get_user_directory, bind, get_fs, ret, path_exists. cbn [fs set_fs].
    rewrite Hdir. reflexivity.
Qed.

(** X5: registration keeps user names unique and only ever appends: when
    the user names of the table are pairwise distinct before
    [register_user], they are so after it, whatever it answers; the rows
    that were there stay, in place; the session and the file system are not
    touched. *)
Theorem register_user_keeps_names_unique (name password : string) (w w' : World)
    (r : result (bool * string)) :
  NoDup (map username (user_table w)) ->
  sign_up name password w = (r, w') ->
  NoDup (map username (user_table w')) /\
  (exists added, user_table w' = user_table w ++ added) /\
  current_user w' = current_user w /\ fs w' = fs w.
Proof.
  intros Hnames. unfold register_user, bind, query_first, session_add_commit, ret.
  destruct (filter_by_username name (user_table w)) as [u|] eqn:Hfind.
  - intros [= <- <-]. repeat split; try assumption. exists []. rewrite app_nil_r. reflexivity.
  - intros [= <- <-]. cbn [user_table set_user_table current_user fs].
    split; [|split; [eauto | split; reflexivity]].
    rewrite map_app. cbn [map username]. apply NoDup_app. split; [exact Hnames|].
    split; [|apply NoDup_singleton].
    intros x Hx Hx'. apply list_elem_of_singleton in Hx'. subst x.
    apply list_elem_of_In, in_map_iff in Hx as (v & Hv & Hin).
    pose proof (find_none _ _ Hfind v Hin) as Hne. cbn in Hne.
    apply String.eqb_neq in Hne. contradiction.
Qed.

(** X6: the live user-name check and registration agree: [username_is_valid]
    answers [True] exactly when [register_user] would succeed for that name
    (with any password), and it changes nothing. *)
Theorem username_is_valid_predicts_registration (name password : string) (w : World) :
  exists valid,
    username_is_valid name w = (Ok valid, w) /\
    (valid = true <->
     fst (sign_up name password w) =
       Ok (true, "Registration successful. You can now log in with your new account.")) /\
    (valid = false <->
     sign_up name password w = (Ok (false, "Username already exists"), w)).
Proof.
  unfold username_is_valid, register_user, bind, query_first, session_add_commit, ret.
  destruct (filter_by_username name (user_table w)) as [u|].
  - exists false. split; [reflexivity|]. cbn. split; split; (discriminate || reflexivity).
  - exists true. split; [reflexivity|]. cbn. split; split; (discriminate || reflexivity).
Qed.

End SessionProperties.

(** ** The session seen by the pages *)

Section PageProperties.

Variable DEFAULT_USER_BASE_FOLDER : Path.
Variable generate_password_hash : string -> string.
Variable check_password_hash : string -> string -> bool.
Variable b64decode : string -> result bytes.
Context {Img : Type}.
Variable Image_open : bytes -> result Img.
Variable Image_verify : Img -> result unit.
Variable Image_save : Img -> Path -> result bytes.
Variable page_registry : list Page.

Local Abbreviation upload :=
  (handle_image_upload DEFAULT_USER_BASE_FOLDER b64decode Image_open Image_verify Image_save).
Local Abbreviation guard := (auth_guard_and_logout page_registry).
Local Abbreviation login_page := (handle_login DEFAULT_USER_BASE_FOLDER check_password_hash).
Local Abbreviation register_page := (register_user_message generate_password_hash).

(** X7: after [logout] the session is anonymous whatever it was: the
    authentication test is false, asking for the user name raises
    [PermissionError], an upload is answered by the login error, and the
    user table and the file system are as before. *)
Theorem logout_ends_the_session (contents filenames : option (list string)) (w : World) :
  exists w',
    logout w = (Ok tt, w') /\
    is_authenticated w' = (Ok false, w') /\
    get_current_username w' =
      (Raise (mk_exn PermissionError "No authenticated user found"), w') /\
    upload contents filenames w' =
      (Ok (mk_response "error" "You must be logged in to upload images." [] []), w') /\
    user_table w' = user_table w /\ fs w' = fs w /\
    logout w' = (Ok tt, w').
Proof.
  exists (set_current_user None w). repeat split.
Qed.

(** X8: the two menus are never shown together: for an authenticated
    session the sign-in menu is hidden, the user menu is shown and the label
    greets the user by name ("User" standing in for an empty name); for an
    anonymous session the user menu is hidden and the label is empty.  The
    requested path plays no part and nothing is changed. *)
Theorem update_menu_visibility_exclusive (pathname : string) (w : World) :
  exists auth_style user_style label,
    update_menu_visibility pathname w = (Ok (auth_style, user_style, label), w) /\
    (auth_style = [("display", "none")] /\ user_style = [] \/
     auth_style = [] /\ user_style = [("display", "none")]) /\
    (forall u, current_user w = Some u ->
       auth_style = [("display", "none")] /\
       label = "Welcome, " +:+ (if String.eqb (username u) "" then "User" else username u)) /\
    (current_user w = None -> user_style = [("display", "none")] /\ label = "").
Proof.
  unfold update_menu_visibility. unfold bind at 1. unfold is_authenticated, has_user.
  destruct (current_user w) as [u|] eqn:Hu.
  - unfold bind. rewrite (get_current_username_signed_in _ _ Hu). unfold ret.
    eexists _, _, _. split; [reflexivity|].
    split; [left; split; reflexivity|]. split; [|discriminate].
    intros u' [= <-]. split; reflexivity.
  - eexists _, _, _. split; [reflexivity|].
    split; [right; split; reflexivity|]. split; [discriminate|].
    intros _. split; reflexivity.
Qed.

(** X9: a redirect of the guard is final.  When the registry tags
    "/login" as an [auth] page and "/select-images" as an [app] page, the
    path the guard redirects to is accepted by the guard in the session it
    leaves behind: no second redirect follows. *)
Theorem guard_redirect_is_final (pathname target : string) (logout_clicks : option Z)
    (w w' : World) :
  _get_location page_registry "/login" = Some "auth" ->
  _get_location page_registry "/select-images" = Some "app" ->
  guard pathname logout_clicks w = (Ok (RedirectTo target), w') ->
  guard target None w' = (Ok no_update, w').
Proof.
  intros Hlogin Happ. unfold auth_guard_and_logout at 1.
  destruct (truthy_clicks logout_clicks).
  - intros [= <- <-]. unfold auth_guard_and_logout, bind, is_authenticated, ret. cbn.
    rewrite Hlogin. reflexivity.
  - unfold bind, is_authenticated, ret. cbn beta iota.
    destruct (has_user w) eqn:Hauth; cbn [andb negb].
    + destruct (location_in _ PROTECTED_LOCATIONS); cbn [negb]; [discriminate|].
      intros [= <- <-]. unfold auth_guard_and_logout, bind, is_authenticated, ret.
      cbn [truthy_clicks]. cbn beta iota. rewrite Hauth, Happ. reflexivity.
    + destruct (location_in _ AUTH_LOCATIONS); cbn [negb]; [discriminate|].
      intros [= <- <-]. unfold auth_guard_and_logout, bind, is_authenticated, ret.
      cbn [truthy_clicks]. cbn beta iota. rewrite Hauth, Hlogin. reflexivity.
Qed.

(** X10: the login page.  Without a click nothing happens.  With a click
    that returns, the redirect is "/select-images" exactly when the colour
    is "success"; a redirect means the session is now signed in under the
    submitted name, no redirect means the world is unchanged; and the page
    redirected to is accepted by the guard when the registry tags it [app]. *)
Theorem handle_login_outcomes (n_clicks : option Z) (name password : string) (w : World) :
  (truthy_clicks n_clicks = false ->
     login_page n_clicks name password w = (Ok ("", "success", no_update), w)) /\
  (forall msg color nav w',
     truthy_clicks n_clicks = true ->
     login_page n_clicks name password w = (Ok (msg, color, nav), w') ->
     (nav = RedirectTo "/select-images" /\ color = "success"
        /\ (exists u, current_user w' = Some u /\ username u = name)
        /\ (_get_location page_registry "/select-images" = Some "app" ->
            guard "/select-images" None w' = (Ok no_update, w'))) \/
     (nav = no_update /\ color = "danger" /\ msg = "Invalid username or password." /\ w' = w)).
Proof.
  split.
  - intros Hclicks. unfold handle_login. rewrite Hclicks. reflexivity.
  - intros msg color nav w' Hclicks. unfold handle_login. rewrite Hclicks. cbn [negb].
    unfold bind. rewrite authenticate_user_run.
    destruct (filter_by_username name (user_table w)) as [u|] eqn:Hfind.
    + destruct (filter_by_username_found _ _ _ Hfind) as [_ Hname].
      destruct (check_password_hash (hashed_password u) password).
      * destruct (mkdir_parents_exist_ok (fs w) _) as [f'|e]; [|discriminate].
        unfold ret. intros [= <- <- <- <-]. left.
        split; [reflexivity|]. split; [reflexivity|].
        split; [exists u; split; [reflexivity | exact Hname]|].
        intros Happ. unfold auth_guard_and_logout, bind, is_authenticated, ret, has_user.
        cbn [truthy_clicks]. cbn beta iota. cbn [current_user set_fs set_current_user].
        rewrite Happ. reflexivity.
      * unfold ret. intros [= <- <- <- <-]. right. repeat split.
    + unfold ret. intros [= <- <- <- <-]. right. repeat split.
Qed.

(** X11: the registration page.  Without a click, or without a password,
    nothing is registered.  With a click and a password the redirect is
    "/login" exactly when the name was free, the message is the one of
    [register_user], and the session and the file system stay as they were:
    registering never signs anyone in. *)
Theorem register_user_message_outcomes (register_clicks : option Z) (name : string)
    (password : option string) (w : World) :
  (truthy_clicks register_clicks = false ->
     register_page register_clicks name password w = (Ok ("", no_update), w)) /\
  (truthy_clicks register_clicks = true -> password = None ->
     register_page register_clicks name password w = (Ok ("Password empty", no_update), w)) /\
  (forall pw, truthy_clicks register_clicks = true -> password = Some pw ->
     exists msg nav w',
       register_page register_clicks name password w = (Ok (msg, nav), w') /\
       current_user w' = current_user w /\ fs w' = fs w /\
       (nav = RedirectTo "/login" <-> filter_by_username name (user_table w) = None) /\
       (nav = no_update <-> msg = "Username already exists" /\ w' = w) /\
       filter_by_username name (user_table w') <> None).
Proof.
  split; [|split].
  - intros Hclicks. unfold register_user_message. rewrite Hclicks. reflexivity.
  - intros Hclicks ->. unfold register_user_message. rewrite Hclicks. reflexivity.
  - intros pw Hclicks ->. unfold register_user_message. rewrite Hclicks. cbn [negb].
    unfold bind at 1. unfold register_user, bind, query_first, session_add_commit, ret.
    destruct (filter_by_username name (user_table w)) as [u|] eqn:Hfind.
    + eexists _, _, _. split; [reflexivity|]. rewrite Hfind.
      repeat split; try discriminate; try congruence.
    + eexists _, _, _. split; [reflexivity|]. cbn [user_table set_user_table current_user fs].
      repeat split; try discriminate; try congruence.
      * intros [H _]. discriminate H.
      * unfold filter_by_username in *.
        erewrite find_app_new; [discriminate | exact Hfind | apply String.eqb_refl].
Qed.

(** X12: the live checks of the registration form agree with what the
    button and the registration do: a non-empty name is flagged "Username
    already exists" exactly when registering it would fail; and whenever
    the button is enabled, the password warning is empty and the password
    is present. *)
Theorem registration_form_checks_agree (name : string) (password confirm : option string)
    (pw : string) (w : World) :
  (name <> "" ->
   exists msg,
     check_username_message (Some name) w = (Ok msg, w) /\
     (msg = "Username already exists" <->
      register_page (Some 1%Z) name (Some pw) w = (Ok ("Username already exists", no_update), w)) /\
     (msg = "" <->
      exists w', register_page (Some 1%Z) name (Some pw) w =
        (Ok ("Registration successful. You can now log in with your new account.",
             RedirectTo "/login"), w'))) /\
  (set_register_button_disabled (Some name) password confirm = false ->
   check_password_message confirm password = "" /\ name <> "" /\
   exists p, password = Some p /\ p <> "" /\ confirm = Some p) /\
  (check_password_message confirm password = "Passwords do not match" ->
   set_register_button_disabled (Some name) password confirm = true).
Proof.
  split; [|split].
  - intros Hname. unfold check_username_message, register_user_message, username_is_valid.
    destruct name as [|c name]; [contradiction|]. cbn [truthy_clicks Z.eqb negb].
    unfold bind, register_user, bind, query_first, session_add_commit, ret.
    destruct (filter_by_username _ (user_table w)) as [u|].
    + exists "Username already exists". split; [reflexivity|].
      split; split; try reflexivity; try discriminate.
      intros [w' H]. discriminate H.
    + exists "". split; [reflexivity|].
      split; split; try reflexivity; try discriminate. eauto.
  - unfold set_register_button_disabled, check_password_message.
    destruct name as [|c name]; [discriminate|]. cbn [truthy_str andb].
    destruct password as [[|d p]|]; cbn [truthy_str andb]; try discriminate.
    destruct (bool_decide (Some (String d p) = confirm)) eqn:Heq; [|discriminate].
    apply bool_decide_eq_true in Heq. subst confirm. intros _.
    cbn [truthy_str negb].
    split; [reflexivity|]. split; [discriminate|]. exists (String d p). repeat split. discriminate.
  - unfold set_register_button_disabled, check_password_message.
    destruct (truthy_str confirm); cbn [negb]; [|discriminate].
    destruct (bool_decide (password = confirm)); cbn [negb]; [discriminate|].
    intros _. rewrite andb_false_r. reflexivity.
Qed.

End PageProperties.

(** ** More on the upload pipeline *)

Section UploadFurther.

Variable DEFAULT_USER_BASE_FOLDER : Path.
Variable b64decode : string -> result bytes.
Context {Img : Type}.
Variable Image_open : bytes -> result Img.
Variable Image_verify : Img -> result unit.
Variable Image_save : Img -> Path -> result bytes.

Local Abbreviation upload :=
  (handle_image_upload DEFAULT_USER_BASE_FOLDER b64decode Image_open Image_verify Image_save).
Local Abbreviation batch :=
  (_process_uploaded_images DEFAULT_USER_BASE_FOLDER b64decode Image_open Image_verify Image_save).
Local Abbreviation one_file := (process_file b64decode Image_open Image_verify Image_save).
Local Abbreviation all_files := (outcomes b64decode Image_open Image_verify Image_save).
Local Abbreviation decode_payload := (decode_base64_image b64decode).
Local Abbreviation check_content := (validate_image_content Image_open Image_verify).

Lemma write_file_dirs (f f' : FS) (p : Path) (data : bytes) :
  write_file f p data = Ok f' -> dirs f' = dirs f.
Proof.
  unfold write_file. destruct (is_dir f p); [discriminate|].
  destruct (negb _); [discriminate|]. intros [= <-]. reflexivity.
Qed.

(** X13: what a saved file holds.  When the four steps succeed for a file,
    the payload decoded, passed the content check and opened as an image,
    and the bytes now stored at [image_dir / saved name] are the ones
    Pillow's [save] produced for that image and path: they replace whatever
    the path held, no other file changes, and the image directory
    exists. *)
Theorem saved_file_content (image_dir : Path) (content filename saved_name : string)
    (w w' : World) :
  one_file image_dir content filename w = (Ok saved_name, w') ->
  exists decoded image data,
    decode_payload content = Ok decoded /\
    check_content decoded = Ok tt /\
    Image_open decoded = Ok image /\
    Image_save image (joinpath image_dir saved_name) = Ok data /\
    files (fs w') !! joinpath image_dir saved_name = Some data /\
    (forall p, p <> joinpath image_dir saved_name -> files (fs w') !! p = files (fs w) !! p) /\
    is_dir (fs w') image_dir = true.
Proof.
  intros Hrun.
  destruct (process_file_frame _ _ _ _ _ _ _ _ _ _ Hrun) as (_ & _ & Hext & Hname & _).
  destruct (valid_extension_name _ Hext) as [_ Hplain].
  assert (Hjoin : name (joinpath image_dir (name (parse filename))) = name (parse filename)).
  { rewrite (joinpath_plain_name _ _ Hplain). unfold name at 1. cbn [parts]. apply last_last. }
  revert Hrun. unfold process_file, bind, lift, ret. rewrite Hext.
  destruct (decode_payload content) as [decoded|e] eqn:Hdecode; [|discriminate].
  destruct (check_content decoded) as [[]|e] eqn:Hcheck; [|discriminate].
  unfold save_image_from_bytes, try_catch. unfold bind at 1.
  destruct (mkdir image_dir w) as [[[]|e] w1] eqn:Hmkdir;
    [|rewrite except_Exception_catches_all; discriminate].
  apply mkdir_frame in Hmkdir as (_ & _ & Hfiles & Hdir). specialize (Hdir eq_refl).
  unfold bind, lift, get_fs, put_fs, ret.
  destruct (Image_open decoded) as [image|e] eqn:Hopen;
    [|rewrite except_Exception_catches_all; discriminate].
  destruct (Image_save image _) as [data|e] eqn:Hsave;
    [|rewrite except_Exception_catches_all; discriminate].
  destruct (write_file (fs w1) _ data) as [f'|e] eqn:Hwrite;
    [|rewrite except_Exception_catches_all; discriminate].
  rewrite Hjoin. intros [= _ <-]. rewrite <- Hname in *.
  exists decoded, image, data. cbn [fs set_fs].
  rewrite (write_file_files _ _ _ _ Hwrite), Hfiles.
  split; [reflexivity|]. split; [exact Hcheck|]. split; [exact Hopen|].
  split; [exact Hsave|]. split; [|split].
  - apply lookup_insert_eq.
  - intros p Hp. apply lookup_insert_ne. congruence.
  - unfold is_dir in *. rewrite (write_file_dirs _ _ _ _ Hwrite). exact Hdir.
Qed.

Lemma unsupported_file_rejected (image_dir : Path) (content filename : string) (w : World) :
  _validate_file_extension filename <> Ok tt ->
  one_file image_dir content filename w =
    (Raise (mk_exn ValueError ("Unsupported file type: " +:+ filename)), w).
Proof.
  unfold process_file, bind, lift, _validate_file_extension.
  destruct (negb _); [reflexivity | congruence].
Qed.

Lemma all_unsupported_outcomes (image_dir : Path) (pairs : list (string * string)) (w : World) :
  Forall (fun pair => _validate_file_extension (snd pair) <> Ok tt) pairs ->
  all_files image_dir pairs w =
    (map (fun pair => (snd pair,
                       Raise (mk_exn ValueError ("Unsupported file type: " +:+ snd pair)))) pairs,
     w).
Proof.
  induction 1 as [|[content filename] rest Hbad _ IH]; [reflexivity|].
  cbn [outcomes]. rewrite (unsupported_file_rejected _ _ _ _ Hbad), IH. reflexivity.
Qed.

(** X14: a batch in which no file name has a supported extension is
    answered by "Upload failed" with one entry "<filename>: Unsupported
    file type: <filename>" per pair, in input order, and changes nothing:
    no directory is created and no payload is decoded. *)
Theorem all_unsupported_batch (contents filenames : list string) (w : World) (u : User) :
  current_user w = Some u ->
  username u <> "" ->
  path_exists (fs w) (joinpath DEFAULT_USER_BASE_FOLDER (username u)) = true ->
  combine contents filenames <> [] ->
  Forall (fun filename => _validate_file_extension filename <> Ok tt) filenames ->
  upload (Some contents) (Some filenames) w =
    (Ok (mk_response "error" "Upload failed" []
           (map (fun filename => filename +:+ ": Unsupported file type: " +:+ filename)
                (map snd (combine contents filenames)))), w).
Proof.
  intros Hu Hname Hdir Hpairs Hbad.
  assert (Hc : truthy_list (Some contents) = true)
    by (destruct contents; [contradiction Hpairs; reflexivity | reflexivity]).
  assert (Hf : truthy_list (Some filenames) = true).
  { destruct filenames; [|reflexivity]. destruct contents; contradiction Hpairs; reflexivity. }
  rewrite handle_upload_batch; [|unfold has_user; rewrite Hu; reflexivity | exact Hc | exact Hf].
  assert (Hcs : or_list (Some contents) [] = contents) by (destruct contents; reflexivity).
  assert (Hfs : or_list (Some filenames) [] = filenames) by (destruct filenames; reflexivity).
  rewrite Hcs, Hfs, (process_batch_outcomes _ _ _ _ _ _ _ _ _ Hu Hname Hdir).
  cbv zeta. rewrite all_unsupported_outcomes.
  - cbn [fst snd saved_files file_errors].
    assert (Hshape : forall pairs : list (string * string),
               saved_of (map (fun pair => (snd pair,
                   Raise (mk_exn ValueError ("Unsupported file type: " +:+ snd pair)))) pairs) = []
               /\ errors_of (map (fun pair => (snd pair,
                   Raise (mk_exn ValueError ("Unsupported file type: " +:+ snd pair)))) pairs)
                  = map (fun filename => filename +:+ ": Unsupported file type: " +:+ filename)
                        (map snd pairs)).
    { induction pairs as [|[c f] pairs [IH1 IH2]]; [split; reflexivity|].
      cbn [map saved_of errors_of snd exn_msg]. rewrite IH2. split; [exact IH1 | reflexivity]. }
    destruct (Hshape (combine contents filenames)) as [-> ->].
    destruct (combine contents filenames) as [|[c f] pairs]; [contradiction|]. reflexivity.
  - apply List.Forall_forall. intros [c f] Hin. cbn [snd].
    rewrite List.Forall_forall in Hbad. apply Hbad. eapply in_combine_r. exact Hin.
Qed.

(** X15: failures of the batch as a whole.  For a signed-in user whose
    directory does not exist, a non-empty upload is answered by "Upload
    failed" with the single entry "User directory does not exist: <path>";
    for a signed-in user with the empty name, by the single entry "No
    authenticated user found".  Either way nothing is changed. *)
Theorem upload_without_user_directory (contents filenames : option (list string))
    (w : World) (u : User) :
  current_user w = Some u ->
  truthy_list contents = true -> truthy_list filenames = true ->
  (username u <> "" ->
   path_exists (fs w) (joinpath DEFAULT_USER_BASE_FOLDER (username u)) = false ->
   upload contents filenames w =
     (Ok (mk_response "error" "Upload failed" []
            ["User directory does not exist: "
               +:+ to_string (joinpath DEFAULT_USER_BASE_FOLDER (username u))]), w)) /\
  (username u = "" ->
   upload contents filenames w =
     (Ok (mk_response "error" "Upload failed" [] ["No authenticated user found"]), w)).
Proof.
  intros Hu Hc Hf.
  assert (Hauth : has_user w = true) by (unfold has_user; rewrite Hu; reflexivity).
  split.
  - intros Hname Hdir. rewrite (handle_upload_batch _ _ _ _ _ _ _ _ Hauth Hc Hf).
    unfold _process_uploaded_images. unfold bind at 1.
    rewrite (get_current_username_signed_in _ _ Hu).
    apply String.eqb_neq in Hname. rewrite Hname.
    unfold get_user_directory, bind, get_fs, raise. rewrite Hdir. reflexivity.
  - intros Hname. rewrite (handle_upload_batch _ _ _ _ _ _ _ _ Hauth Hc Hf).
    unfold _process_uploaded_images. unfold bind at 1.
    rewrite (get_current_username_signed_in _ _ Hu), Hname. reflexivity.
Qed.

Lemma mkdir_dirs (p : Path) (w : World) (r : result unit) (w' : World) :
  mkdir p w = (r, w') -> dirs (fs w) ⊆ dirs (fs w').
Proof.
  unfold mkdir, bind, get_fs, lift, put_fs, mkdir_parents_exist_ok.
  destruct (mkdir_chain (fs w) (anchor p) [] (parts p)) as [f'|e] eqn:Hchain.
  - intros [= <- <-]. cbn. apply (mkdir_chain_dirs _ _ _ _ _ Hchain).
  - intros [= <- <-]. reflexivity.
Qed.

Lemma process_file_dirs (image_dir : Path) (content filename : string)
    (w : World) (r : result string) (w' : World) :
  one_file image_dir content filename w = (r, w') -> dirs (fs w) ⊆ dirs (fs w').
Proof.
  unfold process_file, bind, lift, ret.
  destruct (_validate_file_extension filename) as [[]|e]; [|intros [= <- <-]; reflexivity].
  destruct (decode_payload content) as [decoded|e]; [|intros [= <- <-]; reflexivity].
  destruct (check_content decoded) as [[]|e]; [|intros [= <- <-]; reflexivity].
  unfold save_image_from_bytes, try_catch. unfold bind at 1.
  destruct (mkdir image_dir w) as [[[]|e] w1] eqn:Hmkdir; apply mkdir_dirs in Hmkdir.
  - unfold bind, lift, get_fs, put_fs, ret, raise.
    destruct (Image_open decoded) as [image|e];
      [|rewrite except_Exception_catches_all; intros [= <- <-]; exact Hmkdir].
    destruct (Image_save image _) as [data|e];
      [|rewrite except_Exception_catches_all; intros [= <- <-]; exact Hmkdir].
    destruct (write_file (fs w1) _ data) as [f'|e] eqn:Hwrite;
      [|rewrite except_Exception_catches_all; intros [= <- <-]; exact Hmkdir].
    intros [= <- <-]. cbn [fs set_fs]. rewrite (write_file_dirs _ _ _ _ Hwrite). exact Hmkdir.
  - rewrite except_Exception_catches_all. unfold raise. intros [= <- <-]. exact Hmkdir.
Qed.

(** What a run over the files of a batch keeps: the session, the user
    table, every existing file and every existing directory. *)
Lemma outcomes_keep (image_dir : Path) (pairs : list (string * string)) (w : World) :
  let w' := snd (all_files image_dir pairs w) in
  current_user w' = current_user w /\ user_table w' = user_table w /\
  dirs (fs w) ⊆ dirs (fs w') /\
  (forall p, is_file (fs w) p = true -> is_file (fs w') p = true).
Proof.
  cbv zeta. split; [|split; [|split]]; [| | |apply outcomes_frame];
    revert w; induction pairs as [|[content filename] rest IH]; intros w;
    try reflexivity; cbn [outcomes];
    destruct (one_file image_dir content filename w) as [r w1] eqn:Hone;
    specialize (IH w1); destruct (all_files image_dir rest w1) as [os w2]; cbn [snd] in *.
  - rewrite IH. apply (process_file_frame _ _ _ _ _ _ _ _ _ _ Hone).
  - rewrite IH. apply (process_file_frame _ _ _ _ _ _ _ _ _ _ Hone).
  - etransitivity; [apply (process_file_dirs _ _ _ _ _ _ Hone) | exact IH].
Qed.

(** The two ways a batch run can end. *)
Lemma batch_run_shape (contents filenames : list string) (w : World)
    (r : result ProcessedFileInfo) (w' : World) :
  batch contents filenames w = (r, w') ->
  (exists e, r = Raise e /\ w' = w) \/
  (exists image_dir,
     r = Ok (mk_processed
               (saved_of (fst (all_files image_dir (combine contents filenames) w)))
               (errors_of (fst (all_files image_dir (combine contents filenames) w)))) /\
     w' = snd (all_files image_dir (combine contents filenames) w)).
Proof.
  unfold _process_uploaded_images, get_current_username, get_user_directory,
    is_authenticated, get_fs, bind, ret, raise, has_user.
  destruct (current_user w) as [u|] eqn:Hu; cbn [negb]; [|intros [= <- <-]; eauto].
  rewrite Hu. destruct (String.eqb (username u) ""); [intros [= <- <-]; eauto|].
  destruct (path_exists _ _); cbn [negb]; [|intros [= <- <-]; eauto].
  rewrite upload_loop_outcomes. intros [= <- <-]. right. eauto.
Qed.

(** How the answer of an upload relates to the batch run. *)
Lemma upload_run_shape (contents filenames : option (list string)) (w : World)
    (r : result UploadResponse) (w' : World) :
  upload contents filenames w = (r, w') ->
  exists response, r = Ok response /\
    ((valid_files response = [] /\ w' = w) \/
     (exists image_dir,
        let run := all_files image_dir
                     (combine (or_list contents []) (or_list filenames [])) w in
        (valid_files response = [] \/ valid_files response = saved_of (fst run)) /\
        w' = snd run)).
Proof.
  destruct (has_user w) eqn:Hauth.
  - destruct (truthy_list contents) eqn:Hc; [destruct (truthy_list filenames) eqn:Hf|].
    + rewrite (handle_upload_batch _ _ _ _ _ _ _ _ Hauth Hc Hf).
      destruct (batch _ _ w) as [rb wb] eqn:Hbatch.
      destruct (batch_run_shape _ _ _ _ _ Hbatch) as [(e & -> & ->) | (dir & -> & ->)].
      * intros [= <- <-]. eexists. split; [reflexivity|]. left. split; reflexivity.
      * cbn [saved_files file_errors].
        destruct (saved_of _) as [|s saved] eqn:Hsaved, (errors_of _) as [|e errs];
          intros [= <- <-]; (eexists; split; [reflexivity|]); right; exists dir;
          cbv zeta; cbn [valid_files]; rewrite ?Hsaved; auto.
    + unfold handle_image_upload, bind, is_authenticated. rewrite Hauth, Hc, Hf.
      cbn. intros [= <- <-]. eexists. split; [reflexivity|]. left. split; reflexivity.
    + unfold handle_image_upload, bind, is_authenticated. rewrite Hauth, Hc.
      cbn. intros [= <- <-]. eexists. split; [reflexivity|]. left. split; reflexivity.
  - unfold handle_image_upload, bind, is_authenticated. rewrite Hauth.
    cbn. intros [= <- <-]. eexists. split; [reflexivity|]. left. split; reflexivity.
Qed.

(** X16: an upload never signs anyone in or out, never touches the user
    table, never removes a file and never removes a directory, whatever it
    is given and whatever it answers; and it always answers. *)
Theorem upload_keeps_session_and_files (contents filenames : option (list string))
    (w : World) :
  exists response w',
    upload contents filenames w = (Ok response, w') /\
    current_user w' = current_user w /\
    user_table w' = user_table w /\
    dirs (fs w) ⊆ dirs (fs w') /\
    (forall p, is_file (fs w) p = true -> is_file (fs w') p = true).
Proof.
  destruct (upload contents filenames w) as [r w'] eqn:Hrun.
  destruct (upload_run_shape _ _ _ _ _ Hrun) as (response & -> & Hshape).
  exists response, w'. split; [reflexivity|].
  destruct Hshape as [[_ ->] | (dir & _ & ->)].
  - repeat split; auto.
  - apply outcomes_keep.
Qed.

Lemma decode_blank : exists e, decode_payload "" = Raise e.
Proof. unfold decode_base64_image. cbn. eauto. Qed.

Lemma blank_payload_outcomes (image_dir : Path) (pairs : list (string * string)) (w : World) :
  Forall (fun pair => fst pair = "") pairs ->
  saved_of (fst (all_files image_dir pairs w)) = [] /\
  snd (all_files image_dir pairs w) = w.
Proof.
  induction 1 as [|[content filename] rest Hblank _ IH]; [split; reflexivity|].
  cbn [fst] in Hblank. subst content. cbn [outcomes].
  destruct (process_file_rejected b64decode Image_open Image_verify Image_save
              image_dir "" filename w) as [e ->].
  { intros decoded _ Hdec. destruct decode_blank as [e0 He0]. congruence. }
  destruct (all_files image_dir rest w) as [os w2]. cbn [fst snd saved_of] in *. exact IH.
Qed.

(** X17: the review button and the upload agree on what counts as
    content: when [update_review_images_button_state] disables the button
    for a list of payloads (none, or only empty strings), uploading that
    list saves no file and changes nothing, whatever the file names are. *)
Theorem disabled_button_means_nothing_saved (contents : list string)
    (filenames : option (list string)) (w : World) :
  update_review_images_button_state (Some (map Some contents)) = true ->
  exists response,
    upload (Some contents) filenames w = (Ok response, w) /\
    valid_files response = [].
Proof.
  intros Hbutton.
  assert (Hblank : Forall (fun c => c = "") contents).
  { unfold update_review_images_button_state in Hbutton.
    destruct contents as [|c contents]; [constructor|].
    cbn [map truthy_list negb orb or_list] in Hbutton.
    destruct (any_truthy (Some c :: map Some contents)) eqn:Hany; [discriminate|].
    clear Hbutton. unfold any_truthy in Hany.
    apply List.Forall_forall. intros x Hx.
    destruct x as [|a x]; [reflexivity|].
    assert (Hex : existsb truthy_str (Some c :: map Some contents) = true).
    { apply existsb_exists. exists (Some (String a x)). split; [|reflexivity].
      change (Some c :: map Some contents) with (map Some (c :: contents)).
      apply in_map. exact Hx. }
    congruence. }
  destruct (upload (Some contents) filenames w) as [r w'] eqn:Hrun.
  destruct (upload_run_shape _ _ _ _ _ Hrun) as (response & -> & Hshape).
  exists response.
  destruct Hshape as [[Hvalid ->] | (dir & Hvalid & ->)]; [split; [reflexivity | exact Hvalid]|].
  cbv zeta in Hvalid.
  assert (Hpairs : Forall (fun pair : string * string => fst pair = "")
                     (combine (or_list (Some contents) []) (or_list filenames []))).
  { apply List.Forall_forall. intros [c f] Hin. cbn [fst].
    apply in_combine_l in Hin. rewrite List.Forall_forall in Hblank. apply Hblank.
    destruct contents; [contradiction | exact Hin]. }
  destruct (blank_payload_outcomes dir _ w Hpairs) as [Hsaved Hw].
  rewrite Hw. split; [reflexivity|]. destruct Hvalid as [H|H]; [exact H | congruence].
Qed.

(** X18: only the text after the first comma matters to the decoder: two
    payloads with the same body and any comma-free headers decode alike,
    successfully or not. *)
Theorem decode_ignores_header (header1 header2 body : string) :
  PyStr.has_char "," header1 = false ->
  PyStr.has_char "," header2 = false ->
  decode_payload (header1 +:+ "," +:+ body) = decode_payload (header2 +:+ "," +:+ body).
Proof.
  assert (Hgen : forall header,
             PyStr.has_char "," header = false ->
             decode_payload (header +:+ "," +:+ body) = decode_payload ("," +:+ body)).
  { intros header Hheader. unfold decode_base64_image. rewrite !contains_char.
    assert (Hsplit : PyStr.split1 "," (header +:+ "," +:+ body) = Some (header, body))
      by (apply split1_Some; split; [reflexivity | exact Hheader]).
    assert (Hhas : PyStr.has_char "," (header +:+ "," +:+ body) = true).
    { clear. induction header as [|c h IH]; simpl in *; [reflexivity|].
      rewrite IH. apply orb_true_r. }
    rewrite Hhas, Hsplit. reflexivity. }
  intros H1 H2. rewrite (Hgen _ H1), (Hgen _ H2). reflexivity.
Qed.

End UploadFurther.

(** ** Stored images: listing, review and download *)

Section StoredImages.

Variable DEFAULT_USER_BASE_FOLDER : Path.
Variable scan : ScanOrder.
Variable b64decode : string -> result bytes.
Context {Img ndarray : Type}.
Variable Image_open : bytes -> result Img.
Variable Image_verify : Img -> result unit.
Variable Image_save : Img -> Path -> result bytes.
Variable np_array : Img -> result ndarray.
Variable Image_fromarray : ndarray -> result Img.
Variable Image_save_tiff : Img -> result bytes.
Variable zip_getvalue : ZipFile -> bytes.
Variable b64encode : bytes -> string.

Local Abbreviation batch :=
  (_process_uploaded_images DEFAULT_USER_BASE_FOLDER b64decode Image_open Image_verify Image_save).
Local Abbreviation one_file := (process_file b64decode Image_open Image_verify Image_save).
Local Abbreviation all_files := (outcomes b64decode Image_open Image_verify Image_save).
Local Abbreviation list_images := (get_image_filenames scan).
Local Abbreviation review_files := (get_image_files DEFAULT_USER_BASE_FOLDER scan).
Local Abbreviation load_folder := (get_image_arrays_from_folder scan Image_open np_array).
Local Abbreviation build := (create_tif_zip_archive Image_fromarray Image_save_tiff).
Local Abbreviation download :=
  (download_images_and_review DEFAULT_USER_BASE_FOLDER scan Image_open np_array
     Image_fromarray Image_save_tiff zip_getvalue b64encode).

Lemma supported_name_validates (n : string) :
  supported_name n = true <-> _validate_file_extension n = Ok tt.
Proof.
  unfold supported_name, _validate_file_extension, valid_extensions. cbn [existsb].
  destruct (PyStr.endswith (PyStr.lower n) ".tif"), (PyStr.endswith (PyStr.lower n) ".tiff"),
    (PyStr.endswith (PyStr.lower n) ".png"), (PyStr.endswith (PyStr.lower n) ".jpg"),
    (PyStr.endswith (PyStr.lower n) ".jpeg"); cbn; split; congruence.
Qed.

Lemma enumerate_elem_of (names : gset string) (n : string) :
  In n (enumerate scan names) <-> n ∈ names.
Proof.
  rewrite <- list_elem_of_In, (enumerate_perm scan names). apply elem_of_elements.
Qed.

Lemma enumerate_NoDup (names : gset string) : NoDup (enumerate scan names).
Proof.
  rewrite (enumerate_perm scan names). apply NoDup_elements.
Qed.

Lemma child_names_entry (f : FS) (dir : Path) (n : string) :
  plain_name n = true ->
  is_file f (joinpath dir n) = true ->
  n ∈ child_names f dir.
Proof.
  intros Hplain Hfile. unfold child_names. apply elem_of_map.
  exists (joinpath dir n). rewrite (joinpath_plain_name _ _ Hplain) in *. split.
  - unfold name. cbn [parts]. rewrite last_last. reflexivity.
  - apply elem_of_filter. split.
    + split.
      * cbn [parts]. destruct (parts dir); discriminate.
      * unfold parent. cbn [anchor parts]. rewrite removelast_last. destruct dir; reflexivity.
    + apply elem_of_union_l, elem_of_dom. unfold is_file in Hfile.
      apply bool_decide_eq_true in Hfile. exact Hfile.
Qed.

Lemma get_image_filenames_directory (dir : Path) (w : World) :
  is_dir (fs w) dir = true ->
  exists listing,
    list_images dir w = (Ok listing, w) /\
    NoDup listing /\
    forall n, In n listing <->
              n ∈ child_names (fs w) dir /\ _validate_file_extension n = Ok tt.
Proof.
  intros Hdir. unfold get_image_filenames, bind, get_fs, lift, ret, path_exists, os_listdir.
  rewrite Hdir. cbn [orb negb]. eexists. split; [reflexivity|]. split.
  - apply NoDup_ListNoDup, List.NoDup_filter, NoDup_ListNoDup, enumerate_NoDup.
  - intros n. rewrite filter_In, enumerate_elem_of, supported_name_validates. reflexivity.
Qed.

(** X19: what the listing of a folder shows.  For a missing path
    [get_image_filenames] raises "Directory does not exist: <path>"; for a
    directory it returns, without repetition, exactly the names of its
    entries that the extension check of the upload would accept; it never
    changes anything. *)
Theorem get_image_filenames_lists_supported (dir : Path) (w : World) :
  (path_exists (fs w) dir = false ->
   list_images dir w =
     (Raise (mk_exn FileNotFoundError ("Directory does not exist: " +:+ to_string dir)), w)) /\
  (is_dir (fs w) dir = true ->
   exists listing,
     list_images dir w = (Ok listing, w) /\
     NoDup listing /\
     forall n, In n listing <->
               n ∈ child_names (fs w) dir /\ _validate_file_extension n = Ok tt) /\
  (forall r w', list_images dir w = (r, w') -> w' = w).
Proof.
  split; [|split; [apply get_image_filenames_directory|]].
  - intros H. unfold get_image_filenames, bind, get_fs, raise. rewrite H. reflexivity.
  - intros r w'. unfold get_image_filenames, bind, get_fs, lift, ret, raise.
    destruct (negb _); [intros [= _ <-]; reflexivity|].
    destruct (os_listdir scan (fs w) dir); intros [= _ <-]; reflexivity.
Qed.

Lemma basename_keeps_extension (filename : string) :
  _validate_file_extension filename = Ok tt ->
  _validate_file_extension (name (parse filename)) = Ok tt.
Proof.
  intros Hext. destruct (valid_extension_name _ Hext) as [Hname _]. rewrite Hname.
  revert Hext. unfold _validate_file_extension.
  destruct (existsb _ valid_extensions) eqn:Hex; [intros _ | discriminate].
  apply existsb_exists in Hex as (ext & Hin & Hends).
  assert (Hlast : PyStr.endswith (PyStr.lower (List.last (PyStr.split sep filename) "")) ext
                  = true).
  { unfold valid_extensions in Hin. simpl in Hin.
    destruct Hin as [<-|[<-|[<-|[<-|[<-|[]]]]]];
      (apply last_split_endswith; [reflexivity | exact Hends]). }
  assert (Hex' : existsb (fun e => PyStr.endswith
                    (PyStr.lower (List.last (PyStr.split sep filename) "")) e)
                   valid_extensions = true)
    by (apply existsb_exists; eauto).
  rewrite Hex'. reflexivity.
Qed.

Lemma process_file_makes_directory (image_dir : Path) (content filename saved_name : string)
    (w w' : World) :
  one_file image_dir content filename w = (Ok saved_name, w') ->
  is_dir (fs w') image_dir = true.
Proof.
  unfold process_file, bind, lift, ret.
  destruct (_validate_file_extension filename) as [[]|e]; [|discriminate].
  destruct (decode_base64_image b64decode content) as [decoded|e]; [|discriminate].
  destruct (validate_image_content Image_open Image_verify decoded) as [[]|e]; [|discriminate].
  unfold save_image_from_bytes, try_catch. unfold bind at 1.
  destruct (mkdir image_dir w) as [[[]|e] w1] eqn:Hmkdir;
    [|rewrite except_Exception_catches_all; discriminate].
  apply mkdir_frame in Hmkdir as (_ & _ & _ & Hdir). specialize (Hdir eq_refl).
  unfold bind, lift, get_fs, put_fs, ret.
  destruct (Image_open decoded) as [image|e];
    [|rewrite except_Exception_catches_all; discriminate].
  destruct (Image_save image _) as [data|e];
    [|rewrite except_Exception_catches_all; discriminate].
  destruct (write_file (fs w1) _ data) as [f'|e] eqn:Hwrite;
    [|rewrite except_Exception_catches_all; discriminate].
  intros [= _ <-]. cbn [fs set_fs]. unfold is_dir in *.
  rewrite (write_file_dirs _ _ _ _ Hwrite). exact Hdir.
Qed.

Lemma is_dir_mono (f f' : FS) (p : Path) :
  dirs f ⊆ dirs f' -> is_dir f p = true -> is_dir f' p = true.
Proof.
  unfold is_dir. intros Hsub H. apply orb_true_iff in H as [H|H].
  - rewrite H. reflexivity.
  - apply bool_decide_eq_true in H. apply orb_true_iff. right.
    apply bool_decide_eq_true. apply Hsub. exact H.
Qed.

(** After a run over a batch, every saved name passes the extension check
    and, when something was saved, the image directory exists. *)
Lemma outcomes_saved_names (image_dir : Path) (pairs : list (string * string)) (w : World) :
  let os := fst (all_files image_dir pairs w) in
  let w' := snd (all_files image_dir pairs w) in
  Forall (fun n => _validate_file_extension n = Ok tt) (saved_of os) /\
  (saved_of os <> [] -> is_dir (fs w') image_dir = true).
Proof.
  revert w. induction pairs as [|[content filename] rest IH]; intros w.
  - cbn. split; [constructor | congruence].
  - cbn [outcomes]. destruct (one_file image_dir content filename w) as [r w1] eqn:Hone.
    specialize (IH w1). pose proof (outcomes_keep b64decode Image_open Image_verify Image_save
                                      image_dir rest w1) as Hkeep.
    destruct (all_files image_dir rest w1) as [os w2]. cbn [fst snd] in *.
    destruct IH as [IHnames IHdir]. destruct Hkeep as (_ & _ & Hsub & _).
    destruct r as [n|e]; cbn [saved_of].
    + split.
      * constructor; [|exact IHnames].
        destruct (process_file_frame _ _ _ _ _ _ _ _ _ _ Hone) as (_ & _ & Hext & -> & _).
        apply basename_keeps_extension. exact Hext.
      * intros _. apply (is_dir_mono _ _ _ Hsub).
        eapply process_file_makes_directory. exact Hone.
    + split; [exact IHnames | exact IHdir].
Qed.

(** X20: what was uploaded can be reviewed.  After a batch that saved at
    least one file, the review page's [get_image_files] returns the image
    directory of the user and a listing that contains every saved name. *)
Theorem saved_files_are_listed_for_review (contents filenames : list string)
    (w : World) (u : User) (info : ProcessedFileInfo) (w' : World) :
  current_user w = Some u ->
  batch contents filenames w = (Ok info, w') ->
  saved_files info <> [] ->
  let image_dir := joinpath (joinpath DEFAULT_USER_BASE_FOLDER (username u)) "images" in
  exists listing,
    review_files w' = (Ok (to_string image_dir, listing), w') /\
    forall n, In n (saved_files info) -> In n listing.
Proof.
  intros Hu Hrun Hsaved image_dir.
  destruct (process_batch_ok _ _ _ _ _ _ _ _ _ _ _ Hu Hrun) as [Hname Hdir].
  rewrite (process_batch_outcomes _ _ _ _ _ _ _ _ _ Hu Hname Hdir) in Hrun.
  injection Hrun as <- <-. cbn [saved_files] in *. fold image_dir in Hsaved |- *.
  set (pairs := combine contents filenames) in *.
  destruct (outcomes_keep b64decode Image_open Image_verify Image_save image_dir pairs w)
    as (Hcu & _ & Hsub & _).
  destruct (outcomes_saved_names image_dir pairs w) as [Hnames Himgdir].
  destruct (outcomes_frame b64decode Image_open Image_verify Image_save image_dir pairs w)
    as (Hframe & _ & _).
  specialize (Himgdir Hsaved).
  set (w' := snd (all_files image_dir pairs w)) in *.
  assert (Hu' : current_user w' = Some u) by (rewrite Hcu; exact Hu).
  assert (Hroot : path_exists (fs w') (joinpath DEFAULT_USER_BASE_FOLDER (username u)) = true).
  { unfold path_exists in *. apply orb_true_iff in Hdir as [H|H].
    - rewrite (is_dir_mono _ _ _ Hsub H). reflexivity.
    - destruct (outcomes_frame b64decode Image_open Image_verify Image_save image_dir pairs w)
        as (_ & _ & Hfiles).
      fold w' in Hfiles. rewrite (Hfiles _ H). apply orb_true_r. }
  destruct (get_image_filenames_directory image_dir w' Himgdir)
    as (listing & Hlisting & _ & Hmem).
  exists listing. split.
  - unfold get_image_files, try_catch. unfold bind at 1.
    rewrite (get_current_username_signed_in _ _ Hu').
    unfold bind at 1. rewrite (get_user_directory_existing _ _ _ Hroot).
    fold image_dir. unfold bind. rewrite Hlisting. reflexivity.
  - intros n Hn. apply Hmem. rewrite List.Forall_forall in Hnames, Hframe.
    destruct (Hframe n Hn) as (Hplain & _ & Hfile).
    split; [apply child_names_entry; assumption | apply Hnames; exact Hn].
Qed.

(** X21: the review page never fails and never changes anything: its
    listing callback always returns, and returns the empty answer ("", [])
    for an anonymous session, for a user whose directory does not exist, and
    for a user who has no image directory yet. *)
Theorem get_image_files_never_fails (w : World) :
  (exists user_dir listing, review_files w = (Ok (user_dir, listing), w)) /\
  (current_user w = None -> review_files w = (Ok ("", []), w)) /\
  (forall u, current_user w = Some u ->
     path_exists (fs w) (joinpath DEFAULT_USER_BASE_FOLDER (username u)) = false ->
     review_files w = (Ok ("", []), w)) /\
  (forall u, current_user w = Some u ->
     path_exists (fs w)
       (joinpath (joinpath DEFAULT_USER_BASE_FOLDER (username u)) "images") = false ->
     review_files w = (Ok ("", []), w)).
Proof.
  assert (Hrun : forall u, current_user w = Some u ->
            review_files w =
              if path_exists (fs w) (joinpath DEFAULT_USER_BASE_FOLDER (username u)) then
                match list_images
                        (joinpath (joinpath DEFAULT_USER_BASE_FOLDER (username u)) "images") w with
                | (Ok listing, w') =>
                    (Ok (to_string (joinpath (joinpath DEFAULT_USER_BASE_FOLDER (username u))
                                      "images"), listing), w')
                | (Raise _, w') => (Ok ("", []), w')
                end
              else (Ok ("", []), w)).
  { intros u Hu. unfold get_image_files, try_catch. unfold bind at 1.
    rewrite (get_current_username_signed_in _ _ Hu). unfold bind at 1.
    unfold get_user_directory, bind, get_fs, raise, ret.
    destruct (path_exists (fs w) (joinpath DEFAULT_USER_BASE_FOLDER (username u))); cbn [negb].
    - destruct (list_images _ w) as [[listing|e] w']; [reflexivity|].
      rewrite except_Exception_catches_all. reflexivity.
    - rewrite except_Exception_catches_all. reflexivity. }
  assert (Hanon : current_user w = None -> review_files w = (Ok ("", []), w)).
  { intros Hu. unfold get_image_files, try_catch, get_current_username, bind,
      is_authenticated, has_user. rewrite Hu. cbn. reflexivity. }
  assert (Hsame : forall dir r w', list_images dir w = (r, w') -> w' = w).
  { intros dir r w'. unfold get_image_filenames, bind, get_fs, lift, ret, raise.
    destruct (negb _); [intros [= _ <-]; reflexivity|].
    destruct (os_listdir scan (fs w) dir); intros [= _ <-]; reflexivity. }
  split; [|split; [exact Hanon|split]].
  - destruct (current_user w) as [u|] eqn:Hu; [|eauto].
    rewrite (Hrun u eq_refl). destruct (path_exists _ _); [|eauto].
    destruct (list_images _ w) as [[listing|e] w'] eqn:Hlist;
      rewrite (Hsame _ _ _ Hlist); eauto.
  - intros u Hu Hdir. rewrite (Hrun u Hu), Hdir. reflexivity.
  - intros u Hu Himg. rewrite (Hrun u Hu).
    destruct (path_exists (fs w) (joinpath DEFAULT_USER_BASE_FOLDER (username u)));
      [|reflexivity].
    unfold get_image_filenames, bind, get_fs, raise. rewrite Himg. reflexivity.
Qed.

(** *** The download *)

Lemma load_arrays_length (f : FS) (folder : Path) (listing : list string)
    (acc images : list ndarray) :
  load_arrays Image_open np_array f folder listing acc = Ok images ->
  length images =
    length acc + length (List.filter (fun n => PyStr.endswith n ".tif") listing).
Proof.
  revert acc. induction listing as [|n listing IH]; intros acc; cbn [load_arrays List.filter].
  - intros [= <-]. cbn. lia.
  - destruct (PyStr.endswith n ".tif").
    + destruct (read_file f _) as [content|e]; [|discriminate]. cbn [rbind].
      destruct (Image_open content) as [img|e]; [|discriminate]. cbn [rbind].
      destruct (np_array img) as [array|e]; [|discriminate]. cbn [rbind].
      intros H. apply IH in H. rewrite length_app in H. cbn [length] in *. lia.
    + apply IH.
Qed.

Lemma filter_length_perm {A} (keep : A -> bool) (l l' : list A) :
  l ≡ₚ l' -> length (List.filter keep l) = length (List.filter keep l').
Proof.
  induction 1 as [|x l l' _ IH|x y l|l l' l'' _ IH1 _ IH2]; cbn [List.filter].
  - reflexivity.
  - destruct (keep x); cbn [length]; rewrite IH; reflexivity.
  - destruct (keep x), (keep y); reflexivity.
  - congruence.
Qed.

Lemma write_entries_inv (images : list ndarray) (idx : nat) (zipf archive : ZipFile) :
  write_entries Image_fromarray Image_save_tiff idx images zipf = Ok archive ->
  exists encoded,
    Forall2 (fun image data => get_tiff_bytes Image_fromarray Image_save_tiff image = Ok data)
      images encoded /\
    archive = zipf ++ imap (fun i data => (PyStr.of_nat (idx + i) +:+ ".tif", data)) encoded.
Proof.
  revert idx zipf. induction images as [|image images IH]; intros idx zipf; cbn [write_entries].
  - intros [= <-]. exists []. split; [constructor | rewrite app_nil_r; reflexivity].
  - destruct (get_tiff_bytes _ _ image) as [data|e] eqn:Hdata; [|discriminate]. cbn [rbind].
    intros H. destruct (IH _ _ H) as (encoded & Hall & ->).
    exists (data :: encoded). split; [constructor; assumption|].
    rewrite <- app_assoc. cbn [app imap]. rewrite Nat.add_0_r. do 2 f_equal.
    apply imap_ext. intros i x _. unfold compose. rewrite Nat.add_succ_r. reflexivity.
Qed.

Lemma build_inv (images : list ndarray) (archive : ZipFile) :
  build images = Ok archive ->
  exists encoded,
    Forall2 (fun image data => get_tiff_bytes Image_fromarray Image_save_tiff image = Ok data)
      images encoded /\
    archive = imap (fun i data => (PyStr.of_nat i +:+ ".tif", data)) encoded.
Proof.
  unfold create_tif_zip_archive, try_except.
  destruct (write_entries _ _ 0 images []) as [z|e] eqn:Hw;
    [|rewrite except_Exception_catches_all; discriminate].
  intros [= <-]. exact (write_entries_inv _ _ _ _ Hw).
Qed.

Lemma of_nat_inj (n m : nat) : PyStr.of_nat n = PyStr.of_nat m -> n = m.
Proof.
  unfold PyStr.of_nat. intros H.
  assert (Hnn : forall k, Nat.to_uint k <> Decimal.Nil).
  { intros k Hk. pose proof (DecimalNat.Unsigned.of_to k) as Hof. rewrite Hk in Hof.
    cbn in Hof. subst k. discriminate Hk. }
  apply (f_equal NilZero.uint_of_string) in H.
  rewrite !NilZero.usu in H by apply Hnn.
  injection H as H. apply DecimalNat.Unsigned.to_uint_inj. exact H.
Qed.

Lemma append_inj_l (s1 s2 t : string) : s1 +:+ t = s2 +:+ t -> s1 = s2.
Proof.
  assert (Hlen : forall a b, String.length (a +:+ b) = String.length a + String.length b).
  { induction a as [|c a IH]; intros b; simpl; [reflexivity | rewrite IH; reflexivity]. }
  revert s2. induction s1 as [|c s1 IH]; intros [|d s2] H.
  - reflexivity.
  - apply (f_equal String.length) in H. rewrite !Hlen in H. simpl in H. lia.
  - apply (f_equal String.length) in H. rewrite !Hlen in H. simpl in H. lia.
  - change (String c (s1 +:+ t) = String d (s2 +:+ t)) in H.
    injection H as <- H. f_equal. apply IH. exact H.
Qed.

Lemma lookup_map {A B} (f : A -> B) (l : list A) (i : nat) :
  map f l !! i = f <$> (l !! i).
Proof.
  revert i. induction l as [|x l IH]; intros [|i]; cbn; try reflexivity. apply IH.
Qed.

(** X22: the entries of an archive.  When [create_tif_zip_archive]
    returns, the archive has one entry per image, the i-th entry is named
    "<i>.tif" and holds the TIFF bytes of the i-th image, and no two entries
    share a name. *)
Theorem archive_entries_are_numbered (images : list ndarray) (archive : ZipFile) :
  build images = Ok archive ->
  length archive = length images /\
  NoDup (map fst archive) /\
  forall i, i < length images ->
    exists image data,
      images !! i = Some image /\
      get_tiff_bytes Image_fromarray Image_save_tiff image = Ok data /\
      archive !! i = Some (PyStr.of_nat i +:+ ".tif", data).
Proof.
  intros Hbuild. destruct (build_inv _ _ Hbuild) as (encoded & Hall & ->).
  pose proof (Forall2_length _ _ _ Hall) as Hlen.
  split; [rewrite length_imap; congruence|]. split.
  - apply NoDup_alt. intros i j x Hi Hj.
    rewrite lookup_map in Hi, Hj. rewrite list_lookup_imap in Hi. rewrite list_lookup_imap in Hj.
    destruct (encoded !! i) as [di|]; [|discriminate].
    destruct (encoded !! j) as [dj|]; [|discriminate].
    cbn in Hi, Hj. injection Hi as Hi. injection Hj as Hj. rewrite <- Hj in Hi.
    apply append_inj_l in Hi. apply of_nat_inj. exact Hi.
  - intros i Hi. destruct (lookup_lt_is_Some_2 images i Hi) as [image Himage].
    destruct (Forall2_lookup_l _ _ _ _ _ Hall Himage) as (data & Hdata & Hok).
    exists image, data. split; [exact Himage|]. split; [exact Hok|].
    unfold ZipFile. rewrite list_lookup_imap, Hdata. reflexivity.
Qed.

Lemma load_folder_run (folder : Path) (w : World) :
  load_folder folder w =
    (rbind (os_listdir scan (fs w) folder)
       (fun listing => load_arrays Image_open np_array (fs w) folder listing []), w).
Proof.
  unfold get_image_arrays_from_folder, bind, get_fs, lift.
  destruct (os_listdir scan (fs w) folder); reflexivity.
Qed.

(** The download as a function of what is stored, for a click that
    counts. *)
Lemma download_run (n_clicks : option Z) (contents : option (list string)) (w : World) :
  clicked n_clicks = true -> contents <> Some [] ->
  download n_clicks contents w =
    (Ok match
          (name <-! fst (get_current_username w) ;;
           user_dir <-! fst (get_user_directory DEFAULT_USER_BASE_FOLDER name w) ;;
           images <-! fst (load_folder (joinpath user_dir "images") w) ;;
           build images)
        with
        | Ok archive =>
            (Some (mk_download "images.zip" (b64encode (zip_getvalue archive)) true
                     "application/zip"),
             RedirectTo "/review-images",
             Some (mk_review "success" "Images ready for review." []))
        | Raise e =>
            (None, no_update, Some (mk_review "error" "Failed to download images." [exn_msg e]))
        end, w).
Proof.
  intros Hclick Hcontents. unfold download_images_and_review. rewrite Hclick.
  assert (Hc : match contents with Some [] => true | _ => false end = false).
  { destruct contents as [[|c cs]|]; try reflexivity. contradiction Hcontents. reflexivity. }
  rewrite Hc. cbn [negb orb]. unfold try_catch. unfold bind at 1.
  unfold get_current_username at 1 2, bind, is_authenticated, has_user, raise.
  destruct (current_user w) as [u|] eqn:Hu; cbn [negb fst rbind].
  - rewrite Hu. cbn [fst rbind].
    unfold get_user_directory, bind, get_fs, raise, ret.
    destruct (path_exists (fs w) (joinpath DEFAULT_USER_BASE_FOLDER (username u)));
      cbn [negb fst rbind].
    + rewrite load_folder_run. cbn [fst].
      destruct (rbind (os_listdir scan (fs w) _) _) as [images|e]; cbn [rbind].
      * unfold lift, _create_download_zip.
        destruct (build images) as [archive|e]; cbn [rbind]; [reflexivity|].
        rewrite except_Exception_catches_all. reflexivity.
      * rewrite except_Exception_catches_all. reflexivity.
    + rewrite except_Exception_catches_all. reflexivity.
  - rewrite except_Exception_catches_all. reflexivity.
Qed.

(** X23: the download callback always returns and never changes
    anything.  It does nothing unless the click count is positive and the
    contents are not the empty list (absent contents do not stop it).
    Otherwise it either hands out "images.zip" with a redirect to
    "/review-images", or reports "Failed to download images." with one
    detail and no redirect; the answer "Files uploaded, but failed to create
    ZIP archive for download." is never given, since a failed archive build
    raises and is reported like every other failure. *)
Theorem download_outcomes (n_clicks : option Z) (contents : option (list string)) (w : World) :
  exists data nav status,
    download n_clicks contents w = (Ok (data, nav, status), w) /\
    status <> Some _zip_error_response /\
    (clicked n_clicks = false \/ contents = Some [] ->
       data = None /\ nav = no_update /\ status = None) /\
    (clicked n_clicks = true -> contents <> Some [] ->
       (exists d, data = Some d /\ download_filename d = "images.zip" /\
                  download_type d = "application/zip" /\ download_base64 d = true /\
                  nav = RedirectTo "/review-images" /\
                  status = Some (mk_review "success" "Images ready for review." [])) \/
       (exists detail, data = None /\ nav = no_update /\
                       status = Some (mk_review "error" "Failed to download images." [detail]))) /\
    (clicked n_clicks = true -> contents <> Some [] -> current_user w = None ->
       status = Some (mk_review "error" "Failed to download images."
                        ["No authenticated user found"])).
Proof.
  destruct (clicked n_clicks) eqn:Hclick.
  - destruct (decide (contents = Some [])) as [->|Hcontents].
    + exists None, no_update, None. split.
      { unfold download_images_and_review. rewrite Hclick. reflexivity. }
      repeat split; try discriminate; try congruence.
    + rewrite (download_run _ _ _ Hclick Hcontents).
      destruct (rbind (fst (get_current_username w)) _) as [archive|e] eqn:Hpipe.
      * eexists _, _, _. split; [reflexivity|]. split; [discriminate|].
        split; [intros [H|H]; [discriminate | contradiction]|]. split.
        -- intros _ _. left. eexists. repeat split.
        -- intros _ _ Hu. exfalso. revert Hpipe.
           unfold get_current_username, bind, is_authenticated, has_user, raise.
           rewrite Hu. discriminate.
      * eexists _, _, _. split; [reflexivity|]. split; [discriminate|].
        split; [intros [H|H]; [discriminate | contradiction]|]. split.
        -- intros _ _. right. eexists. repeat split.
        -- intros _ _ Hu. revert Hpipe.
           unfold get_current_username, bind, is_authenticated, has_user, raise.
           rewrite Hu. cbn. intros [= <-]. reflexivity.
  - exists None, no_update, None. split.
    { unfold download_images_and_review. rewrite Hclick. reflexivity. }
    repeat split; try discriminate; try congruence.
Qed.

(** X24: what a successful download contains.  When the callback hands
    out an archive, the session is signed in, the archive was built from
    the arrays loaded from the user's image directory, its content is the
    base64 text of that archive, and it has exactly one entry per directory
    entry whose name ends in ".tif" as written: entries with another
    supported suffix (".png", ".jpg", ".tiff", or an upper-case ".TIF")
    are not part of it. *)
Theorem download_contains_the_tif_entries (n_clicks : option Z)
    (contents : option (list string)) (w w' : World) (d : DownloadData)
    (nav : Navigation) (status : option ReviewImagesResponse) :
  download n_clicks contents w = (Ok (Some d, nav, status), w') ->
  exists u images archive,
    current_user w = Some u /\
    let image_dir := joinpath (joinpath DEFAULT_USER_BASE_FOLDER (username u)) "images" in
    fst (load_folder image_dir w) = Ok images /\
    build images = Ok archive /\
    download_content d = b64encode (zip_getvalue archive) /\
    length archive =
      length (List.filter (fun n => PyStr.endswith n ".tif")
                (elements (child_names (fs w) image_dir))).
Proof.
  intros Hrun.
  assert (Hclick : clicked n_clicks = true).
  { destruct (clicked n_clicks) eqn:H; [reflexivity|].
    unfold download_images_and_review in Hrun. rewrite H in Hrun. discriminate Hrun. }
  assert (Hcontents : contents <> Some []).
  { intros ->. unfold download_images_and_review in Hrun. rewrite Hclick in Hrun.
    discriminate Hrun. }
  rewrite (download_run _ _ _ Hclick Hcontents) in Hrun.
  destruct (current_user w) as [u|] eqn:Hu.
  2:{ revert Hrun. unfold get_current_username, bind, is_authenticated, has_user, raise.
      rewrite Hu. discriminate. }
  rewrite (get_current_username_signed_in _ _ Hu) in Hrun. cbn [fst rbind] in Hrun.
  revert Hrun. unfold get_user_directory, bind, get_fs, raise, ret.
  destruct (path_exists (fs w) (joinpath DEFAULT_USER_BASE_FOLDER (username u)));
    cbn [negb fst rbind]; [|discriminate].
  destruct (fst (load_folder _ w)) as [images|e] eqn:Hload; cbn [rbind]; [|discriminate].
  destruct (build images) as [archive|e] eqn:Hbuild; [|discriminate].
  intros [= <- _ _ _]. exists u, images, archive.
  split; [reflexivity|]. cbv zeta. split; [exact Hload|]. split; [exact Hbuild|].
  split; [reflexivity|].
  destruct (build_inv _ _ Hbuild) as (encoded & Hall & ->).
  rewrite length_imap, <- (Forall2_length _ _ _ Hall).
  rewrite load_folder_run in Hload. cbn [fst] in Hload. unfold os_listdir in Hload.
  destruct (is_dir (fs w) _); [|destruct (is_file (fs w) _); discriminate].
  cbn [rbind] in Hload. apply load_arrays_length in Hload. cbn [length] in Hload.
  rewrite Hload. cbn [Nat.add]. apply filter_length_perm, enumerate_perm.
Qed.

End StoredImages.

(** ** The user directory *)

Section UserDirectory.

Variable DEFAULT_USER_BASE_FOLDER : Path.

Local Abbreviation make_directory := (create_user_directory DEFAULT_USER_BASE_FOLDER).

Lemma add_dir_present (p : Path) (f : FS) : p ∈ dirs f -> add_dir p f = f.
Proof.
  intros Hin. destruct f as [d fl]. unfold add_dir. cbn [dirs files] in *. f_equal.
  apply subseteq_union_1_L, singleton_subseteq_l. exact Hin.
Qed.

Lemma mkdir_chain_again (todo done : list string) (root : string) (f f' : FS) :
  mkdir_chain f root done todo = Ok f' -> mkdir_chain f' root done todo = Ok f'.
Proof.
  revert done f. induction todo as [|c rest IH]; intros done f; cbn [mkdir_chain].
  - reflexivity.
  - destruct (is_file f (mk_path root (done ++ [c]))) eqn:Hfile.
    + destruct rest; discriminate.
    + intros H. pose proof (mkdir_chain_files _ _ _ _ _ H) as Hfiles.
      destruct (mkdir_chain_dirs _ _ _ _ _ H) as [Hsub _].
      cbn [add_dir files dirs] in Hfiles, Hsub.
      assert (Hsame : is_file f' (mk_path root (done ++ [c])) = false)
        by (unfold is_file in *; rewrite Hfiles; exact Hfile).
      rewrite Hsame, add_dir_present; [exact (IH _ _ H)|].
      apply Hsub, elem_of_union_l, elem_of_singleton. reflexivity.
Qed.

(** X25: [create_user_directory] only ever adds directories: the session,
    the user table and every file stay as they are.  When it returns, the
    user's directory exists and calling it again returns and changes
    nothing further; when it raises, the exception is "Failed to create user
    directory for <name>", whatever the cause was. *)
Theorem create_user_directory_effects (name : string) (w w' : World) (r : result unit) :
  make_directory name w = (r, w') ->
  current_user w' = current_user w /\ user_table w' = user_table w /\
  files (fs w') = files (fs w) /\ dirs (fs w) ⊆ dirs (fs w') /\
  (r = Ok tt ->
     is_dir (fs w') (joinpath DEFAULT_USER_BASE_FOLDER name) = true /\
     make_directory name w' = (Ok tt, w')) /\
  (forall e, r = Raise e ->
     e = mk_exn OSError ("Failed to create user directory for " +:+ name)).
Proof.
  unfold create_user_directory, try_catch, mkdir, bind, get_fs, lift, put_fs, raise,
    mkdir_parents_exist_ok.
  destruct (mkdir_chain (fs w) _ [] _) as [f'|e0] eqn:Hchain.
  - intros [= <- <-]. cbn [current_user user_table fs set_fs].
    pose proof (mkdir_parents_ok _ _ _ Hchain) as (Hfiles & Hsub & Hdir).
    split; [reflexivity|]. split; [reflexivity|]. split; [exact Hfiles|].
    split; [exact Hsub|]. split; [|discriminate].
    intros _. split; [exact Hdir|].
    rewrite (mkdir_chain_again _ _ _ _ _ Hchain). destruct w; reflexivity.
  - rewrite except_Exception_catches_all. intros [= <- <-].
    repeat split; try reflexivity; try discriminate.
    intros e [= <-]. reflexivity.
Qed.

End UserDirectory.

(** ** The further statements on concrete runs *)

Section FurtherRuns.

Import Collaborators Stored.

Local Abbreviation sign_in := (authenticate_user DEFAULT_USER_BASE_FOLDER check_password_hash).
Local Abbreviation upload :=
  (handle_image_upload DEFAULT_USER_BASE_FOLDER b64decode Image_open Image_verify Image_save).
Local Abbreviation batch :=
  (_process_uploaded_images DEFAULT_USER_BASE_FOLDER b64decode Image_open Image_verify Image_save).
Local Abbreviation one_file := (process_file b64decode Image_open Image_verify Image_save).
Local Abbreviation download :=
  (download_images_and_review DEFAULT_USER_BASE_FOLDER scan Image_open np_array
     Image_fromarray Image_save_tiff zip_getvalue b64encode).
Local Abbreviation images_of_alice := (parse "/data/users/alice/images").

Lemma refused_login_changes_nothing_witness :
  sign_in "alice" "guess" registered = (Ok (false, "Invalid username or password."), registered)
  /\ "Invalid username or password." = "Invalid username or password."
  /\ registered = registered.
Proof.
  assert (H : sign_in "alice" "guess" registered
              = (Ok (false, "Invalid username or password."), registered))
    by (vm_compute; reflexivity).
  split; [exact H|].
  destruct (refused_login_changes_nothing DEFAULT_USER_BASE_FOLDER check_password_hash
              _ _ _ _ _ H) as (Hmsg & Hw & _).
  split; [exact Hmsg | exact Hw].
Defined.

Lemma successful_login_effects_witness :
  let w' := snd (sign_in "alice" "pw123" registered) in
  sign_in "alice" "pw123" registered = (Ok (true, "Login successful. Redirecting..."), w')
  /\ get_current_username w' = (Ok "alice", w')
  /\ is_dir (fs w') (joinpath DEFAULT_USER_BASE_FOLDER "alice") = true.
Proof.
  cbv zeta.
  assert (H : sign_in "alice" "pw123" registered
              = (Ok (true, "Login successful. Redirecting..."),
                 snd (sign_in "alice" "pw123" registered)))
    by (vm_compute; reflexivity).
  split; [exact H|].
  destruct (successful_login_effects DEFAULT_USER_BASE_FOLDER check_password_hash
              _ _ _ _ _ H) as (_ & _ & _ & _ & _ & Hdir & Hname & _).
  split; [exact Hname | exact Hdir].
Defined.

Lemma login_raises_after_signing_in_witness :
  let e := mk_exn OSError "Failed to create user directory for alice" in
  let w' := snd (sign_in "alice" "pw123" blocked) in
  sign_in "alice" "pw123" blocked = (Raise e, w')
  /\ exists u, current_user w' = Some u /\ username u = "alice".
Proof.
  cbv zeta.
  assert (H : sign_in "alice" "pw123" blocked
              = (Raise (mk_exn OSError "Failed to create user directory for alice"),
                 snd (sign_in "alice" "pw123" blocked)))
    by (vm_compute; reflexivity).
  split; [exact H|].
  destruct (login_raises_after_signing_in DEFAULT_USER_BASE_FOLDER check_password_hash
              _ _ _ _ _ H) as (_ & Hu & _).
  exact Hu.
Defined.

Lemma register_then_login_witness :
  filter_by_username "bob" (user_table registered) = None /\
  check_password_hash (generate_password_hash "s3cret") "s3cret" = true /\
  is_ok (mkdir_parents_exist_ok (fs registered) (joinpath DEFAULT_USER_BASE_FOLDER "bob")) = true /\
  exists w1 w2,
    register_user generate_password_hash "bob" "s3cret" registered =
      (Ok (true, "Registration successful. You can now log in with your new account."), w1) /\
    sign_in "bob" "s3cret" w1 = (Ok (true, "Login successful. Redirecting..."), w2) /\
    get_current_username w2 = (Ok "bob", w2) /\
    get_user_directory DEFAULT_USER_BASE_FOLDER "bob" w2 =
      (Ok (joinpath DEFAULT_USER_BASE_FOLDER "bob"), w2).
Proof.
  split; [reflexivity|]. split; [reflexivity|]. split; [vm_compute; reflexivity|].
  apply (register_then_login DEFAULT_USER_BASE_FOLDER generate_password_hash
           check_password_hash "bob" "s3cret" registered);
    [reflexivity | reflexivity | vm_compute; reflexivity].
Defined.

Lemma register_user_keeps_names_unique_witness :
  let run := register_user generate_password_hash "bob" "s3cret" registered in
  NoDup (map username (user_table registered)) /\
  run = (fst run, snd run) /\
  NoDup (map username (user_table (snd run))).
Proof.
  cbv zeta.
  assert (Hnames : NoDup (map username (user_table registered)))
    by (apply NoDup_singleton).
  split; [exact Hnames|]. split; [reflexivity|].
  destruct (register_user_keeps_names_unique generate_password_hash "bob" "s3cret"
              registered _ _ Hnames eq_refl) as (H1 & _).
  exact H1.
Defined.

Lemma guard_redirect_is_final_witness :
  _get_location pages "/login" = Some "auth" /\
  _get_location pages "/select-images" = Some "app" /\
  auth_guard_and_logout pages "/review-images" (Some 1%Z) signed_in
    = (Ok (RedirectTo "/login"), signed_out) /\
  auth_guard_and_logout pages "/login" None signed_out = (Ok no_update, signed_out).
Proof.
  split; [reflexivity|]. split; [reflexivity|]. split; [reflexivity|].
  apply (guard_redirect_is_final pages "/review-images" "/login" (Some 1%Z) signed_in
           signed_out); reflexivity.
Defined.

Lemma saved_file_content_witness :
  let w' := snd (one_file images_of_alice png_payload "x/cell.png" signed_in) in
  one_file images_of_alice png_payload "x/cell.png" signed_in = (Ok "cell.png", w') /\
  exists decoded image data,
    decode_base64_image b64decode png_payload = Ok decoded /\
    Image_open decoded = Ok image /\
    Image_save image (joinpath images_of_alice "cell.png") = Ok data /\
    files (fs w') !! joinpath images_of_alice "cell.png" = Some data.
Proof.
  cbv zeta.
  assert (H : one_file images_of_alice png_payload "x/cell.png" signed_in
              = (Ok "cell.png",
                 snd (one_file images_of_alice png_payload "x/cell.png" signed_in)))
    by (vm_compute; reflexivity).
  split; [exact H|].
  destruct (saved_file_content b64decode Image_open Image_verify Image_save _ _ _ _ _ _ H)
    as (decoded & image & data & H1 & _ & H3 & H4 & H5 & _).
  exists decoded, image, data. repeat split; assumption.
Defined.

Lemma all_unsupported_batch_witness :
  current_user signed_in = Some alice /\
  username alice <> "" /\
  path_exists (fs signed_in) (joinpath DEFAULT_USER_BASE_FOLDER (username alice)) = true /\
  combine [png_payload; png_payload] ["notes.txt"; "run.exe"] <> [] /\
  Forall (fun filename => _validate_file_extension filename <> Ok tt) ["notes.txt"; "run.exe"] /\
  upload (Some [png_payload; png_payload]) (Some ["notes.txt"; "run.exe"]) signed_in =
    (Ok (mk_response "error" "Upload failed" []
           (map (fun filename => filename +:+ ": Unsupported file type: " +:+ filename)
                (map snd (combine [png_payload; png_payload] ["notes.txt"; "run.exe"])))),
     signed_in).
Proof.
  assert (Hbad : Forall (fun filename => _validate_file_extension filename <> Ok tt)
                   ["notes.txt"; "run.exe"])
    by (repeat constructor; discriminate).
  split; [reflexivity|]. split; [discriminate|]. split; [reflexivity|].
  split; [discriminate|]. split; [exact Hbad|].
  apply (all_unsupported_batch DEFAULT_USER_BASE_FOLDER b64decode Image_open Image_verify
           Image_save _ _ signed_in alice);
    [reflexivity | discriminate | reflexivity | discriminate | exact Hbad].
Defined.

Lemma upload_without_user_directory_witness :
  let w := mk_world (Some alice) [alice] empty_fs in
  current_user w = Some alice /\
  truthy_list (Some [png_payload]) = true /\ truthy_list (Some ["cell.png"]) = true /\
  upload (Some [png_payload]) (Some ["cell.png"]) w =
    (Ok (mk_response "error" "Upload failed" []
           ["User directory does not exist: /data/users/alice"]), w).
Proof.
  cbv zeta. split; [reflexivity|]. split; [reflexivity|]. split; [reflexivity|].
  destruct (upload_without_user_directory DEFAULT_USER_BASE_FOLDER b64decode Image_open
              Image_verify Image_save (Some [png_payload]) (Some ["cell.png"])
              (mk_world (Some alice) [alice] empty_fs) alice eq_refl eq_refl eq_refl)
    as [H _].
  apply H; [discriminate | reflexivity].
Defined.

Lemma disabled_button_means_nothing_saved_witness :
  update_review_images_button_state (Some (map Some [""; ""])) = true /\
  exists response,
    upload (Some [""; ""]) (Some ["a.png"; "b.png"]) signed_in = (Ok response, signed_in) /\
    valid_files response = [].
Proof.
  split; [reflexivity|].
  apply (disabled_button_means_nothing_saved DEFAULT_USER_BASE_FOLDER b64decode Image_open
           Image_verify Image_save [""; ""] (Some ["a.png"; "b.png"]) signed_in).
  reflexivity.
Defined.

Lemma decode_ignores_header_witness :
  PyStr.has_char "," "data:image/png;base64" = false /\
  PyStr.has_char "," "" = false /\
  decode_base64_image b64decode ("data:image/png;base64" +:+ "," +:+ "iVBORw0KGgo=")
  = decode_base64_image b64decode ("" +:+ "," +:+ "iVBORw0KGgo=").
Proof.
  split; [reflexivity|]. split; [reflexivity|].
  apply (decode_ignores_header b64decode); reflexivity.
Defined.

Lemma saved_files_are_listed_for_review_witness :
  let info := mk_processed ["a.tif"; "b.png"] [] in
  let w' := snd (batch [png_payload; png_payload] ["a.tif"; "b.png"] signed_in) in
  current_user signed_in = Some alice /\
  batch [png_payload; png_payload] ["a.tif"; "b.png"] signed_in = (Ok info, w') /\
  saved_files info <> [] /\
  exists listing,
    get_image_files DEFAULT_USER_BASE_FOLDER scan w' =
      (Ok (to_string (joinpath (joinpath DEFAULT_USER_BASE_FOLDER (username alice)) "images"),
           listing), w') /\
    forall n, In n (saved_files info) -> In n listing.
Proof.
  cbv zeta.
  assert (H : batch [png_payload; png_payload] ["a.tif"; "b.png"] signed_in
              = (Ok (mk_processed ["a.tif"; "b.png"] []),
                 snd (batch [png_payload; png_payload] ["a.tif"; "b.png"] signed_in)))
    by (vm_compute; reflexivity).
  split; [reflexivity|]. split; [exact H|]. split; [discriminate|].
  apply (saved_files_are_listed_for_review DEFAULT_USER_BASE_FOLDER scan b64decode
           Image_open Image_verify Image_save _ _ signed_in alice _ _ eq_refl H).
  discriminate.
Defined.

Lemma archive_entries_are_numbered_witness :
  let images := [mk_array uint8 [[1; 2; 3]]; mk_array uint16 [[4; 5; 6]]] in
  let archive := [("0.tif", [x49; x49; x2a; x00; x01; x02; x03]);
                  ("1.tif", [x49; x49; x2a; x00; x04; x05; x06])] in
  create_tif_zip_archive Image_fromarray Image_save_tiff images = Ok archive /\
  length archive = length images /\ NoDup (map fst archive).
Proof.
  cbv zeta.
  assert (H : create_tif_zip_archive Image_fromarray Image_save_tiff
                [mk_array uint8 [[1; 2; 3]]; mk_array uint16 [[4; 5; 6]]]
              = Ok [("0.tif", [x49; x49; x2a; x00; x01; x02; x03]);
                    ("1.tif", [x49; x49; x2a; x00; x04; x05; x06])])
    by reflexivity.
  split; [exact H|].
  destruct (archive_entries_are_numbered Image_fromarray Image_save_tiff _ _ H)
    as (Hlen & Hnd & _).
  split; [exact Hlen | exact Hnd].
Defined.

Lemma download_contains_the_tif_entries_witness :
  let d := mk_download "images.zip" "17" true "application/zip" in
  let status := Some (mk_review "success" "Images ready for review." []) in
  download (Some 1%Z) None stocked = (Ok (Some d, RedirectTo "/review-images", status), stocked)
  /\ exists u images archive,
       current_user stocked = Some u /\
       create_tif_zip_archive Image_fromarray Image_save_tiff images = Ok archive /\
       length archive =
         length (List.filter (fun n => PyStr.endswith n ".tif")
                   (elements (child_names (fs stocked)
                      (joinpath (joinpath DEFAULT_USER_BASE_FOLDER (username u)) "images")))).
Proof.
  cbv zeta.
  assert (H : download (Some 1%Z) None stocked
              = (Ok (Some (mk_download "images.zip" "17" true "application/zip"),
                     RedirectTo "/review-images",
                     Some (mk_review "success" "Images ready for review." [])), stocked))
    by (vm_compute; reflexivity).
  split; [exact H|].
  destruct (download_contains_the_tif_entries DEFAULT_USER_BASE_FOLDER scan Image_open
              np_array Image_fromarray Image_save_tiff zip_getvalue b64encode
              _ _ _ _ _ _ _ H) as (u & images & archive & Hu & _ & Hbuild & _ & Hlen).
  exists u, images, archive. repeat split; assumption.
Defined.

Example download_leaves_out_the_png :
  fst (get_image_files DEFAULT_USER_BASE_FOLDER scan stocked)
    = Ok ("/data/users/alice/images", ["a.tif"; "b.png"])
  /\ fst (get_image_arrays_from_folder scan Image_open np_array images_of_alice stocked)
    = Ok [mk_array uint8 [[137; 80; 78; 71; 13; 10; 26; 10]]].
Proof. split; vm_compute; reflexivity. Qed.

Lemma create_user_directory_effects_witness :
  let run := create_user_directory DEFAULT_USER_BASE_FOLDER "alice" registered in
  run = (Ok tt, snd run) /\
  is_dir (fs (snd run)) (joinpath DEFAULT_USER_BASE_FOLDER "alice") = true /\
  create_user_directory DEFAULT_USER_BASE_FOLDER "alice" (snd run) = (Ok tt, snd run).
Proof.
  cbv zeta.
  assert (H : create_user_directory DEFAULT_USER_BASE_FOLDER "alice" registered
              = (Ok tt, snd (create_user_directory DEFAULT_USER_BASE_FOLDER "alice" registered)))
    by (vm_compute; reflexivity).
  split; [exact H|].
  destruct (create_user_directory_effects DEFAULT_USER_BASE_FOLDER _ _ _ _ H)
    as (_ & _ & _ & _ & Hok & _).
  exact (Hok eq_refl).
Defined.

End FurtherRuns.
